(** * DreamSaver: the goal ledger and its withdrawal state machine

    A shallow embedding of the Solidity contract [DreamSaver]
    (pragma ^0.8.20, hence checked arithmetic) and proofs of the ledger
    properties of the specification.

    - [uint256] values are modelled as [N]; the two additions of the contract
      ([nextGoalId++] and [balance += msg.value]) are checked and panic with
      code 0x11 when the sum leaves the 256-bit range;
    - [mapping]s are [gmap]s read with the Solidity default value;
    - [require] failures and panics abort the call; a call that aborts leaves
      storage and the event log as they were before it;
    - the low-level call [payable(msg.sender).call{value: amount}] runs
      code chosen by the recipient, which may call back into the contract;
    - ether is kept by the EVM, not by storage: [custody] is what the ledger
      owes, [funded] follows what the contract holds, and a payable call
      reaches the contract only after its value was credited. *)

From stdpp Require Import base numbers option list sorting gmap strings.

Local Open Scope N_scope.

(** ** Data model *)

Definition address := N.

Definition MAX_UINT256 : N := 2 ^ 256 - 1.

Record SavingGoal := mkSavingGoal {
  owner : address;
  title : string;
  description : string;
  targetAmount : N;
  deadline : N;
  balance : N;
  isWithdrawn : bool
}.

(** The value a Solidity mapping returns for a key never written. *)
Definition zeroGoal : SavingGoal :=
  mkSavingGoal 0 EmptyString EmptyString 0 0 0 false.

Record Ledger := mkLedger {
  goals : gmap N SavingGoal;
  ownerGoals : gmap N (list N);
  nextGoalId : N
}.

(** Storage right after deployment. *)
Definition init : Ledger := mkLedger ∅ ∅ 0.

Inductive Event :=
| GoalCreated (goalId : N) (by_owner : address) (target : N) (due : N)
| Deposited (goalId : N) (from : address) (amount : N) (newBalance : N)
| Withdrawn (goalId : N) (to : address) (amount : N).

(** [goals[goalId]] and [ownerGoals[a]] as storage reads. *)
Definition goal (s : Ledger) (goalId : N) : SavingGoal :=
  default zeroGoal (goals s !! goalId).

Definition ownerGoalsOf (s : Ledger) (a : address) : list N :=
  default [] (ownerGoals s !! a).

(** Storage writes. *)
Definition set_goal (goalId : N) (g : SavingGoal) (s : Ledger) : Ledger :=
  mkLedger (<[goalId := g]> (goals s)) (ownerGoals s) (nextGoalId s).

Definition set_nextGoalId (n : N) (s : Ledger) : Ledger :=
  mkLedger (goals s) (ownerGoals s) n.

Definition push_ownerGoal (a : address) (goalId : N) (s : Ledger) : Ledger :=
  mkLedger (goals s) (<[a := ownerGoalsOf s a ++ [goalId]]> (ownerGoals s))
           (nextGoalId s).

Definition with_balance (b : N) (g : SavingGoal) : SavingGoal :=
  mkSavingGoal (owner g) (title g) (description g) (targetAmount g)
               (deadline g) b (isWithdrawn g).

Definition with_isWithdrawn (b : bool) (g : SavingGoal) : SavingGoal :=
  mkSavingGoal (owner g) (title g) (description g) (targetAmount g)
               (deadline g) (balance g) b.

Definition set_balance (goalId : N) (b : N) (s : Ledger) : Ledger :=
  set_goal goalId (with_balance b (goal s goalId)) s.

Definition set_isWithdrawn (goalId : N) (b : bool) (s : Ledger) : Ledger :=
  set_goal goalId (with_isWithdrawn b (goal s goalId)) s.

(** ** Execution monad: storage, event log, failure, and a ghost trace *)

Inductive failure :=
| Revert (reason : string)
| Panic (code : N).

Inductive result (A : Type) :=
| Ok (a : A)
| Fail (f : failure).
Arguments Ok {A} a.
Arguments Fail {A} f.

(** What a call works on: storage and the events logged so far. *)
Definition World : Type := Ledger * list Event.

(** Ghost observations, kept even when the frame that made them reverts.
    [Handed] marks the moment control passes to the funds transfer and
    records the goal as storage holds it at that moment; [SeenDeposit] and
    [SeenWithdraw] record a call made by recipient code: the goal as the call
    finds it, and whether the call succeeded. *)
Inductive Obs :=
| Handed (goalId : N) (to : address) (amount : N) (g : SavingGoal)
| SeenDeposit (goalId : N) (g : SavingGoal) (ok : bool)
| SeenWithdraw (goalId : N) (g : SavingGoal) (ok : bool)
| SeenCreateGoal (ok : bool).

Definition Exec (A : Type) : Type := World -> list Obs * result (A * World).

Definition ret {A} (a : A) : Exec A := fun w => ([], Ok (a, w)).

Definition bind {A B} (m : Exec A) (k : A -> Exec B) : Exec B := fun w =>
  match m w with
  | (t, Ok (a, w')) => let '(t', r) := k a w' in (t ++ t', r)
  | (t, Fail f) => (t, Fail f)
  end.

#[global] Instance exec_ret : MRet Exec := @ret.
#[global] Instance exec_bind : MBind Exec := fun A B k m => bind m k.

Definition require (c : bool) (reason : string) : Exec unit := fun w =>
  ([], if c then Ok (tt, w) else Fail (Revert reason)).

Definition sload : Exec Ledger := fun w => ([], Ok (w.1, w)).

Definition sstore (f : Ledger -> Ledger) : Exec unit := fun w =>
  ([], Ok (tt, (f w.1, w.2))).

Definition emit (e : Event) : Exec unit := fun w =>
  ([], Ok (tt, (w.1, w.2 ++ [e]))).

Definition observe (o : Obs) : Exec unit := fun w => ([o], Ok (tt, w)).

(** Checked [uint256] addition of Solidity 0.8: panic 0x11 on overflow. *)
Definition checked_add (a b : N) : Exec N := fun w =>
  ([], if bool_decide (a + b ≤ MAX_UINT256) then Ok (a + b, w)
       else Fail (Panic 17)).

(** ** The contract *)

Definition goalExists (s : Ledger) (goalId : N) : bool :=
  bool_decide (goalId < nextGoalId s).

Definition createGoal (sender : address) (now : N)
    (title description : string) (targetAmount deadline : N) : Exec N :=
  require (bool_decide (0 < targetAmount))
          "Target amount must be greater than 0";;
  require (bool_decide (now < deadline)) "Deadline must be in the future";;
  require (bool_decide (0 < String.length title)%nat) "Title cannot be empty";;
  s ← sload;
  let goalId := nextGoalId s in
  next ← checked_add (nextGoalId s) 1;
  sstore (set_nextGoalId next);;
  sstore (set_goal goalId
            (mkSavingGoal sender title description targetAmount deadline
                          0 false));;
  sstore (push_ownerGoal sender goalId);;
  emit (GoalCreated goalId sender targetAmount deadline);;
  mret goalId.

Definition deposit (sender : address) (value : N) (goalId : N) : Exec unit :=
  s ← sload;
  require (goalExists s goalId) "Goal does not exist";;
  require (bool_decide (0 < value)) "Deposit amount must be greater than 0";;
  require (negb (isWithdrawn (goal s goalId)))
          "Goal has already been withdrawn";;
  newBalance ← checked_add (balance (goal s goalId)) value;
  sstore (set_balance goalId newBalance);;
  s' ← sload;
  emit (Deposited goalId sender value (balance (goal s' goalId))).

(** The low-level call: the recipient's code runs on the current world; when
    it fails, its own changes are undone and [success] is false. *)
Definition call_value (recipient : World -> list Obs * option World)
    : Exec bool := fun w =>
  match recipient w with
  | (t, Some w') => (t, Ok (true, w'))
  | (t, None) => (t, Ok (false, w))
  end.

Definition withdraw (recipient : World -> list Obs * option World)
    (sender : address) (now : N) (goalId : N) : Exec unit :=
  s ← sload;
  require (goalExists s goalId) "Goal does not exist";;
  require (bool_decide (sender = owner (goal s goalId)))
          "Only goal owner can withdraw";;
  require (negb (isWithdrawn (goal s goalId)))
          "Goal has already been withdrawn";;
  let deadlinePassed := bool_decide (deadline (goal s goalId) ≤ now) in
  let targetReached :=
    bool_decide (targetAmount (goal s goalId) ≤ balance (goal s goalId)) in
  require (deadlinePassed || targetReached)
          "Cannot withdraw: deadline not passed and target not reached";;
  let amount := balance (goal s goalId) in
  require (bool_decide (0 < amount)) "No balance to withdraw";;
  sstore (set_isWithdrawn goalId true);;
  sstore (set_balance goalId 0);;
  s1 ← sload;
  observe (Handed goalId sender amount (goal s1 goalId));;
  success ← call_value recipient;
  require success "Transfer failed";;
  emit (Withdrawn goalId sender amount).

Definition getGoal (s : Ledger) (goalId : N) : result SavingGoal :=
  if goalExists s goalId then Ok (goal s goalId)
  else Fail (Revert "Goal does not exist").

Definition getGoalsByOwner (s : Ledger) (a : address) : list N :=
  ownerGoalsOf s a.

Definition getTotalGoals (s : Ledger) : N := nextGoalId s.

Definition canWithdraw (s : Ledger) (now : N) (goalId : N) : bool :=
  if negb (goalExists s goalId) then false
  else
    let g := goal s goalId in
    if isWithdrawn g then false
    else if bool_decide (balance g = 0) then false
    else
      let deadlinePassed := bool_decide (deadline g ≤ now) in
      let targetReached := bool_decide (targetAmount g ≤ balance g) in
      deadlinePassed || targetReached.

(** ** Recipient code and reentrancy

    What the code at the receiving address does when the transfer reaches
    it: any finite sequence of calls back into the contract, each made as a
    low-level call whose success the recipient sees, ended by accepting or
    refusing the funds.  A nested [withdraw] names the code that runs at its
    own transfer. *)

Inductive Recv :=
| Accept
| Refuse
| CallDeposit (sender : address) (value goalId : N) (k : bool -> Recv)
| CallWithdraw (sender : address) (goalId : N) (inner : Recv)
               (k : bool -> Recv)
| CallCreateGoal (sender : address) (title description : string)
                 (targetAmount deadline : N) (k : bool -> Recv).

(** A low-level call into the contract from recipient code: a failure is
    caught, the world is as before the call. *)
Definition attempt {A} (m : Exec A) (w : World) : list Obs * bool * World :=
  match m w with
  | (t, Ok (_, w')) => (t, true, w')
  | (t, Fail _) => (t, false, w)
  end.

Fixpoint run (r : Recv) (now : N) (w : World) : list Obs * option World :=
  match r with
  | Accept => ([], Some w)
  | Refuse => ([], None)
  | CallDeposit sender value goalId k =>
      let '(t, ok, w') := attempt (deposit sender value goalId) w in
      let '(t', o) := run (k ok) now w' in
      (SeenDeposit goalId (goal w.1 goalId) ok :: t ++ t', o)
  | CallWithdraw sender goalId inner k =>
      let '(t, ok, w') :=
        attempt (withdraw (run inner now) sender now goalId) w in
      let '(t', o) := run (k ok) now w' in
      (SeenWithdraw goalId (goal w.1 goalId) ok :: t ++ t', o)
  | CallCreateGoal sender title description targetAmount deadline k =>
      let '(t, ok, w') :=
        attempt (createGoal sender now title description targetAmount
                            deadline) w in
      let '(t', o) := run (k ok) now w' in
      (SeenCreateGoal ok :: t ++ t', o)
  end.

(** ** Transactions *)

Inductive Tx :=
| TxCreateGoal (sender : address) (title description : string)
               (targetAmount deadline : N)
| TxDeposit (sender : address) (value goalId : N)
| TxWithdraw (sender : address) (goalId : N) (recipient : Recv).

Record Receipt (A : Type) := mkReceipt {
  storage : Ledger;
  logs : list Event;
  outcome : result A;
  ghost : list Obs
}.
Arguments mkReceipt {A}.
Arguments storage {A}.
Arguments logs {A}.
Arguments outcome {A}.
Arguments ghost {A}.

(** A top-level call at block time [now]: on failure storage is what it was
    and nothing is logged. *)
Definition transact {A} (m : Exec A) (s : Ledger) : Receipt A :=
  match m (s, []) with
  | (t, Ok (a, (s', evs))) => mkReceipt s' evs (Ok a) t
  | (t, Fail f) => mkReceipt s [] (Fail f) t
  end.

Definition exec (s : Ledger) (now : N) (tx : Tx) : Ledger :=
  match tx with
  | TxCreateGoal sender title description targetAmount deadline =>
      storage (transact (createGoal sender now title description
                                    targetAmount deadline) s)
  | TxDeposit sender value goalId =>
      storage (transact (deposit sender value goalId) s)
  | TxWithdraw sender goalId recipient =>
      storage (transact (withdraw (run recipient now) sender now goalId) s)
  end.

(** [reaches s s']: some sequence of transactions leads from [s] to [s']. *)
Inductive reaches (s : Ledger) : Ledger -> Prop :=
| reaches_refl : reaches s s
| reaches_step s' now tx : reaches s s' -> reaches s (exec s' now tx).

Definition reachable (s : Ledger) : Prop := reaches init s.

(** ** Scenarios of the test suite, run on the model *)

Module Scenarios.

Definition alice : address := 10.
Definition bob : address := 11.
Definition carol : address := 12.

Definition day : N := 86400.
Definition ONE_ETH : N := 10 ^ 18.
Definition TWO_ETH : N := 2 * 10 ^ 18.

Definition s1 : Ledger :=
  exec init 100 (TxCreateGoal alice "My Dream" "Description" TWO_ETH
                              (100 + day)).
Definition s2 : Ledger := exec s1 101 (TxDeposit bob ONE_ETH 0).
Definition s3 : Ledger := exec s2 102 (TxDeposit carol ONE_ETH 0).
Definition s4 : Ledger := exec s3 103 (TxWithdraw alice 0 Accept).

(** A recipient that calls [withdraw] again from inside the transfer. *)
Definition greedy : Recv :=
  CallWithdraw alice 0 Accept (fun _ => Accept).

End Scenarios.

(** ** Storage updates of the three mutating entry points *)

Definition created_store (sender : address) (title description : string)
    (targetAmount deadline : N) (s : Ledger) : Ledger :=
  push_ownerGoal sender (nextGoalId s)
    (set_goal (nextGoalId s)
       (mkSavingGoal sender title description targetAmount deadline 0 false)
       (set_nextGoalId (nextGoalId s + 1) s)).

(** The storage [withdraw] hands to the transfer. *)
Definition finalized (goalId : N) (s : Ledger) : Ledger :=
  set_balance goalId 0 (set_isWithdrawn goalId true s).

(** The five preconditions of [withdraw], in source order. *)
Definition withdraw_precheck (s : Ledger) (sender : address) (now goalId : N)
    : option string :=
  if negb (goalExists s goalId) then Some "Goal does not exist"
  else if negb (bool_decide (sender = owner (goal s goalId)))
  then Some "Only goal owner can withdraw"
  else if isWithdrawn (goal s goalId)
  then Some "Goal has already been withdrawn"
  else if negb (bool_decide (deadline (goal s goalId) ≤ now)
                || bool_decide (targetAmount (goal s goalId)
                                ≤ balance (goal s goalId)))
  then Some "Cannot withdraw: deadline not passed and target not reached"
  else if negb (bool_decide (0 < balance (goal s goalId)))
  then Some "No balance to withdraw"
  else None.

(** ** Predicates used in the statements *)

(** The goal exists, is withdrawn and holds nothing. *)
Definition sealed (goalId : N) (s : Ledger) : Prop :=
  goalId < nextGoalId s /\ isWithdrawn (goal s goalId) = true /\
  balance (goal s goalId) = 0.

(** What an observation must look like while [goalId] is sealed: no transfer
    for it is started, and every call on it finds it withdrawn and empty and
    fails. *)
Definition blocked (goalId : N) (o : Obs) : Prop :=
  match o with
  | Handed goalId' _ _ _ => goalId' ≠ goalId
  | SeenDeposit goalId' g ok | SeenWithdraw goalId' g ok =>
      goalId' = goalId ->
      isWithdrawn g = true /\ balance g = 0 /\ ok = false
  | SeenCreateGoal _ => True
  end.

(** Only goals below the counter can be withdrawn. *)
Definition withdrawn_exists (s : Ledger) : Prop :=
  forall goalId, isWithdrawn (goal s goalId) = true -> goalId < nextGoalId s.

(** [balance == 0] whenever [isWithdrawn == true]. *)
Definition withdrawn_empty (s : Ledger) : Prop :=
  forall goalId, isWithdrawn (goal s goalId) = true ->
                 balance (goal s goalId) = 0.

(** The ids allocated so far, in allocation order: [0; 1; ...; n - 1]. *)
Definition ids (n : N) : list N := N.of_nat <$> seq 0 (N.to_nat n).

(** The index holds, for every identity, the ids of its goals in allocation
    order. *)
Definition owner_index_ok (s : Ledger) : Prop :=
  forall a, ownerGoalsOf s a =
            filter (fun goalId => owner (goal s goalId) = a)
                   (ids (nextGoalId s)).

(** ** Ledgers at the edge of the [uint256] range *)

Module Overflow.

(** One goal, filled to the largest [uint256] by a single deposit. *)
Definition brim : Ledger :=
  exec Scenarios.s1 101 (TxDeposit Scenarios.bob MAX_UINT256 0).

End Overflow.

Definition with_terms (tgt dl : N) (g : SavingGoal) : SavingGoal :=
  mkSavingGoal (owner g) (title g) (description g) tgt dl (balance g)
               (isWithdrawn g).

(** ** The event history of a ledger *)

(** The events a top-level transaction logs (none when it fails). *)
Definition tx_logs (s : Ledger) (now : N) (tx : Tx) : list Event :=
  match tx with
  | TxCreateGoal sender title description targetAmount deadline =>
      logs (transact (createGoal sender now title description
                                 targetAmount deadline) s)
  | TxDeposit sender value goalId =>
      logs (transact (deposit sender value goalId) s)
  | TxWithdraw sender goalId recipient =>
      logs (transact (withdraw (run recipient now) sender now goalId) s)
  end.

(** [ledger_history s h]: some sequence of transactions leads from
    deployment to storage [s], and [h] is what they logged, in order. *)
Inductive ledger_history : Ledger -> list Event -> Prop :=
| history_init : ledger_history init []
| history_step s h now tx :
    ledger_history s h ->
    ledger_history (exec s now tx) (h ++ tx_logs s now tx).

(** Total amount of the [Deposited] events of a goal. *)
Fixpoint deposited_for (goalId : N) (evs : list Event) : N :=
  match evs with
  | [] => 0
  | Deposited g _ amount _ :: evs' =>
      (if decide (g = goalId) then amount else 0) + deposited_for goalId evs'
  | _ :: evs' => deposited_for goalId evs'
  end.

(** Total amount of the [Withdrawn] events of a goal. *)
Fixpoint withdrawn_for (goalId : N) (evs : list Event) : N :=
  match evs with
  | [] => 0
  | Withdrawn g _ amount :: evs' =>
      (if decide (g = goalId) then amount else 0) + withdrawn_for goalId evs'
  | _ :: evs' => withdrawn_for goalId evs'
  end.

(** Number of [Withdrawn] events of a goal. *)
Fixpoint payouts (goalId : N) (evs : list Event) : N :=
  match evs with
  | [] => 0
  | Withdrawn g _ _ :: evs' =>
      (if decide (g = goalId) then 1 else 0) + payouts goalId evs'
  | _ :: evs' => payouts goalId evs'
  end.

Definition flag (b : bool) : N := if b then 1 else 0.

(** Storage slots at or above the id counter were never written. *)
Definition unallocated_empty (s : Ledger) : Prop :=
  forall goalId, ¬ goalId < nextGoalId s -> goals s !! goalId = None.

(** Every allocated id holds a goal that passed the checks of
    [createGoal]. *)
Definition goals_valid (s : Ledger) : Prop :=
  forall goalId, goalId < nextGoalId s ->
    exists g, goals s !! goalId = Some g /\ 0 < targetAmount g /\
              title g ≠ EmptyString.

(** The fields [createGoal] sets and nothing writes again. *)
Definition same_terms (g g' : SavingGoal) : Prop :=
  owner g' = owner g /\ title g' = title g /\
  description g' = description g /\ targetAmount g' = targetAmount g /\
  deadline g' = deadline g.

(** The ids announced by the [GoalCreated] events, in log order. *)
Fixpoint created_ids (evs : list Event) : list N :=
  match evs with
  | [] => []
  | GoalCreated g _ _ _ :: evs' => g :: created_ids evs'
  | _ :: evs' => created_ids evs'
  end.

(** No stored number has left the [uint256] range. *)
Definition in_range (s : Ledger) : Prop :=
  nextGoalId s ≤ MAX_UINT256 /\
  forall goalId, balance (goal s goalId) ≤ MAX_UINT256.

(** Across any call: what a goal holds plus what was paid out of it moves
    with what was paid in, and a payout is logged exactly when the goal
    turns withdrawn. *)
Definition accounts_agree (w w' : World) : Prop :=
  unallocated_empty w.1 ->
  unallocated_empty w'.1 /\
  forall goalId,
    balance (goal w'.1 goalId) + withdrawn_for goalId w'.2
      + deposited_for goalId w.2 =
    balance (goal w.1 goalId) + withdrawn_for goalId w.2
      + deposited_for goalId w'.2 /\
    payouts goalId w'.2 + flag (isWithdrawn (goal w.1 goalId)) =
    payouts goalId w.2 + flag (isWithdrawn (goal w'.1 goalId)).

(** Across any call, the ids announced are the ids allocated. *)
Definition announces_allocations (w w' : World) : Prop :=
  exists l, created_ids w'.2 = created_ids w.2 ++ l /\
            ids (nextGoalId w'.1) = ids (nextGoalId w.1) ++ l.

(** What the four transactions of the scenario logged. *)
Definition scenario_history : list Event :=
  ((([] ++ tx_logs init 100
             (TxCreateGoal Scenarios.alice "My Dream" "Description"
                           Scenarios.TWO_ETH (100 + Scenarios.day)))
    ++ tx_logs Scenarios.s1 101 (TxDeposit Scenarios.bob Scenarios.ONE_ETH 0))
   ++ tx_logs Scenarios.s2 102
        (TxDeposit Scenarios.carol Scenarios.ONE_ETH 0))
  ++ tx_logs Scenarios.s3 103 (TxWithdraw Scenarios.alice 0 Accept).

(** Across any call, every new [Withdrawn] event names an existing goal and
    its owner; owners and ids stay. *)
Definition pays_owner (w w' : World) : Prop :=
  nextGoalId w.1 ≤ nextGoalId w'.1 /\
  (forall goalId, goalId < nextGoalId w.1 ->
     owner (goal w'.1 goalId) = owner (goal w.1 goalId)) /\
  (forall goalId to amount,
     Withdrawn goalId to amount ∈ w'.2 ->
     Withdrawn goalId to amount ∈ w.2 \/
     (goalId < nextGoalId w'.1 /\ to = owner (goal w'.1 goalId))).

(** Across any call, every new [GoalCreated] event describes the goal
    stored under its id; ids and terms stay. *)
Definition announces_terms (w w' : World) : Prop :=
  nextGoalId w.1 ≤ nextGoalId w'.1 /\
  (forall goalId, goalId < nextGoalId w.1 ->
     same_terms (goal w.1 goalId) (goal w'.1 goalId)) /\
  (forall goalId o tgt dl,
     GoalCreated goalId o tgt dl ∈ w'.2 ->
     GoalCreated goalId o tgt dl ∈ w.2 \/
     (goalId < nextGoalId w'.1 /\ owner (goal w'.1 goalId) = o /\
      targetAmount (goal w'.1 goalId) = tgt /\
      deadline (goal w'.1 goalId) = dl)).

(** ** The pages that read the ledger

    [loadGoals] of the application and the action buttons of [GoalCard].
    Addresses are compared by value, which is what the pages' comparison of
    lower-cased hex strings does; a view call is a read of the chain as it
    is when the call is made. *)

Module Frontend.

(** The [Goal] interface of the pages. *)
Record Goal := mkGoal {
  id : N;
  owner : address;
  title : string;
  description : string;
  targetAmount : N;
  deadline : N;
  balance : N;
  isWithdrawn : bool
}.

(** One entry of [allGoalsData]: the tuple [getGoal(i)] returned, under
    [id: i]. *)
Definition entry (i : N) (g : SavingGoal) : Goal :=
  match g with
  | mkSavingGoal o t d tgt dl b w => mkGoal i o t d tgt dl b w
  end.

(** [Number(totalGoals)] is exact up to 2^53; beyond that it rounds, which
    is left out: [None]. *)
Definition Number (n : N) : option N :=
  if bool_decide (n ≤ 2 ^ 53) then Some n else None.

(** The loop [for (i = 0; i < n; i++)] of [loadGoals]; the call
    [getGoal(i)] reads the chain as it is at that moment, [chain i].  The
    first call that fails ends the loop. *)
Fixpoint fetchGoals (chain : nat -> Ledger) (n : nat) : result (list Goal) :=
  match n with
  | O => Ok []
  | S i =>
      match fetchGoals chain i with
      | Ok acc =>
          match getGoal (chain i) (N.of_nat i) with
          | Ok g => Ok (acc ++ [entry (N.of_nat i) g])
          | Fail f => Fail f
          end
      | Fail f => Fail f
      end
  end.

(** [loadGoals]: [s0] is the chain when [getTotalGoals] is read; the result
    is what [setAllGoals] and [setMyGoals] receive ([None] for the latter
    when no account is set), or the error the [catch] logs. *)
Definition loadGoals (s0 : Ledger) (chain : nat -> Ledger)
    (account : option address)
    : option (result (list Goal * option (list Goal))) :=
  match Number (getTotalGoals s0) with
  | None => None
  | Some total =>
      Some (match fetchGoals chain (N.to_nat total) with
            | Ok allGoalsData =>
                Ok (allGoalsData,
                    (fun a => filter (fun g => owner g = a) allGoalsData)
                      <$> account)
            | Fail f => Fail f
            end)
  end.

(** [GoalCard]: who sees which button.  [isPastDeadline] is what the card
    computes from the browser clock. *)
Definition isOwner (currentAccount : address) (g : Goal) : bool :=
  bool_decide (currentAccount = owner g).

Definition isTargetReached (g : Goal) : bool :=
  bool_decide (targetAmount g ≤ balance g).

Definition showsDonate (currentAccount : address) (g : Goal) : bool :=
  negb (isWithdrawn g) && negb (isOwner currentAccount g).

Definition showsWithdraw (currentAccount : address) (isPastDeadline : bool)
    (g : Goal) : bool :=
  negb (isWithdrawn g) &&
  (isOwner currentAccount g && (isPastDeadline || isTargetReached g)).

End Frontend.

(** ** What a call returns, and the ether the contract holds *)

(** The words of the ABI-encoded return value: [createGoal] is declared
    [returns (uint256)], [deposit] and [withdraw] return nothing. *)
Class Returns (A : Type) := returndata : A -> list N.

#[global] Instance returns_nothing : Returns unit := fun _ => [].

#[global] Instance returns_uint256 : Returns N := fun n => [n].

Definition returned {A} `{Returns A} (r : Receipt A) : option (list N) :=
  match outcome r with
  | Ok a => Some (returndata a)
  | Fail _ => None
  end.

Definition sum_over (f : N -> N) (l : list N) : N :=
  foldr (fun x acc => f x + acc) 0 l.

(** What the ledger owes: the balances of all goals, added up. *)
Definition custody (s : Ledger) : N :=
  sum_over (fun goalId => balance (goal s goalId)) (ids (nextGoalId s)).

Definition succeeded {A} (r : result A) : bool :=
  match r with
  | Ok _ => true
  | Fail _ => false
  end.

(** The contract's own ether, [address(this).balance], followed along a
    call.  A payable call credits [msg.value] before the body runs, which
    the EVM can only do when the sum is a [uint256]; a call that fails gives
    the value back.  [call{value: amount}] debits [amount] before the
    recipient runs; when the recipient fails, the debit is undone with the
    rest of its frame.  [None]: a payable call in the tree that no chain
    can deliver, or a transfer of more than the contract holds, which
    does not arise while the contract holds what the ledger owes. *)
Definition withdraw_ether (inner : World -> N -> option N)
    (sender : address) (now goalId : N) (w : World) (held : N) (ok : bool)
    : option N :=
  match withdraw_precheck w.1 sender now goalId with
  | Some _ => Some held
  | None =>
      let amount := balance (goal w.1 goalId) in
      if bool_decide (amount ≤ held) then
        match inner (finalized goalId w.1, w.2) (held - amount) with
        | Some held1 => Some (if ok then held1 else held)
        | None => None
        end
      else None
  end.

Fixpoint ether (r : Recv) (now : N) (w : World) (held : N) : option N :=
  match r with
  | Accept => Some held
  | Refuse => Some held
  | CallDeposit sender value goalId k =>
      if bool_decide (held + value ≤ MAX_UINT256) then
        let '(_, ok, w') := attempt (deposit sender value goalId) w in
        ether (k ok) now w' (if ok then held + value else held)
      else None
  | CallWithdraw sender goalId inner k =>
      let '(_, ok, w') :=
        attempt (withdraw (run inner now) sender now goalId) w in
      match withdraw_ether (ether inner now) sender now goalId w held ok with
      | Some held' => ether (k ok) now w' held'
      | None => None
      end
  | CallCreateGoal sender title description targetAmount deadline k =>
      let '(_, ok, w') :=
        attempt (createGoal sender now title description targetAmount
                            deadline) w in
      ether (k ok) now w' held
  end.

(** The contract's ether after a top-level transaction. *)
Definition tx_ether (s : Ledger) (held : N) (now : N) (tx : Tx) : option N :=
  match tx with
  | TxCreateGoal _ _ _ _ _ => Some held
  | TxDeposit sender value goalId =>
      if bool_decide (held + value ≤ MAX_UINT256) then
        Some (if succeeded (outcome (transact (deposit sender value goalId) s))
              then held + value else held)
      else None
  | TxWithdraw sender goalId recipient =>
      withdraw_ether (ether recipient now) sender now goalId (s, []) held
        (succeeded (outcome (transact (withdraw (run recipient now) sender
                                                now goalId) s)))
  end.

(** [funded s held]: a chain can be in storage [s] with the contract
    holding [held] wei.  Ether can also reach the contract without a call
    (a [selfdestruct] elsewhere): [funded_gift]. *)
Inductive funded : Ledger -> N -> Prop :=
| funded_init : funded init 0
| funded_gift s held v :
    funded s held -> held + v ≤ MAX_UINT256 -> funded s (held + v)
| funded_step s held now tx held' :
    funded s held -> tx_ether s held now tx = Some held' ->
    funded (exec s now tx) held'.

Ltac unfold_exec :=
  unfold mbind, mret, exec_bind, exec_ret, bind, ret, require, sload, sstore,
    emit, observe, checked_add, call_value in *.

(** ** The scenarios, checked by evaluation *)

Module ScenarioChecks.
Import Scenarios.

Example created : goal s1 0 =
  mkSavingGoal alice "My Dream" "Description" TWO_ETH (100 + day) 0 false.
Proof. vm_compute. reflexivity. Qed.

Example two_deposits : balance (goal s3 0) = TWO_ETH.
Proof. vm_compute. reflexivity. Qed.

Example target_reached : canWithdraw s3 103 0 = true.
Proof. vm_compute. reflexivity. Qed.

Example withdrawn : isWithdrawn (goal s4 0) = true /\ balance (goal s4 0) = 0.
Proof. vm_compute. split; reflexivity. Qed.

Example too_early :
  outcome (transact (withdraw (run Accept 102) alice 102 0) s2) =
  Fail (Revert
    "Cannot withdraw: deadline not passed and target not reached").
Proof. vm_compute. reflexivity. Qed.

Example after_deadline :
  logs (transact (withdraw (run Accept (101 + day)) alice (101 + day) 0) s2)
  = [Withdrawn 0 alice ONE_ETH].
Proof. vm_compute. reflexivity. Qed.

Example non_owner :
  outcome (transact (withdraw (run Accept 103) bob 103 0) s3) =
  Fail (Revert "Only goal owner can withdraw").
Proof. vm_compute. reflexivity. Qed.

Example deposit_after_withdraw :
  outcome (transact (deposit bob ONE_ETH 0) s4) =
  Fail (Revert "Goal has already been withdrawn").
Proof. vm_compute. reflexivity. Qed.

Example reentrant_withdraw_blocked :
  ghost (transact (withdraw (run greedy 103) alice 103 0) s3) =
  [Handed 0 alice TWO_ETH
     (mkSavingGoal alice "My Dream" "Description" TWO_ETH (100 + day) 0 true);
   SeenWithdraw 0
     (mkSavingGoal alice "My Dream" "Description" TWO_ETH (100 + day) 0 true)
     false].
Proof. vm_compute. reflexivity. Qed.

End ScenarioChecks.

(** ** Unfolding the monad: each entry point as one case analysis *)

Lemma createGoal_eq sender now ttl dsc tgt dl (s : Ledger) (evs : list Event) :
  createGoal sender now ttl dsc tgt dl (s, evs) =
  ([], if bool_decide (0 < tgt) then
         if bool_decide (now < dl) then
           if bool_decide (0 < String.length ttl)%nat then
             if bool_decide (nextGoalId s + 1 ≤ MAX_UINT256) then
               Ok (nextGoalId s,
                   (created_store sender ttl dsc tgt dl s,
                    evs ++ [GoalCreated (nextGoalId s) sender tgt dl]))
             else Fail (Panic 17)
           else Fail (Revert "Title cannot be empty")
         else Fail (Revert "Deadline must be in the future")
       else Fail (Revert "Target amount must be greater than 0")).
Proof.
  unfold createGoal. unfold_exec. cbn [fst snd].
  repeat (case_bool_decide; cbn [fst snd app]); reflexivity.
Qed.

Lemma deposit_eq sender value goalId (s : Ledger) (evs : list Event) :
  deposit sender value goalId (s, evs) =
  ([], if goalExists s goalId then
         if bool_decide (0 < value) then
           if isWithdrawn (goal s goalId) then
             Fail (Revert "Goal has already been withdrawn")
           else if bool_decide (balance (goal s goalId) + value ≤ MAX_UINT256)
           then
             let s' := set_balance goalId (balance (goal s goalId) + value) s in
             Ok (tt, (s', evs ++ [Deposited goalId sender value
                                            (balance (goal s' goalId))]))
           else Fail (Panic 17)
         else Fail (Revert "Deposit amount must be greater than 0")
       else Fail (Revert "Goal does not exist")).
Proof.
  unfold deposit. unfold_exec. cbn [fst snd].
  destruct (goalExists s goalId); [|reflexivity]. cbn [fst snd app].
  case_bool_decide; [|reflexivity]. cbn [fst snd app].
  destruct (isWithdrawn (goal s goalId)); [reflexivity|]. cbn [fst snd app negb].
  case_bool_decide; reflexivity.
Qed.

Lemma withdraw_eq rcp sender now goalId (s : Ledger) (evs : list Event) :
  withdraw rcp sender now goalId (s, evs) =
  match withdraw_precheck s sender now goalId with
  | Some reason => ([], Fail (Revert reason))
  | None =>
      let amount := balance (goal s goalId) in
      let s1 := finalized goalId s in
      match rcp (s1, evs) with
      | (t, Some (s2, evs2)) =>
          (Handed goalId sender amount (goal s1 goalId) :: t,
           Ok (tt, (s2, evs2 ++ [Withdrawn goalId sender amount])))
      | (t, None) =>
          (Handed goalId sender amount (goal s1 goalId) :: t,
           Fail (Revert "Transfer failed"))
      end
  end.
Proof.
  unfold withdraw, withdraw_precheck. unfold_exec. cbn [fst snd].
  destruct (goalExists s goalId); [|reflexivity]. cbn [fst snd app negb].
  case_bool_decide; [|reflexivity]. cbn [fst snd app negb].
  destruct (isWithdrawn (goal s goalId)); [reflexivity|]. cbn [fst snd app negb].
  destruct (_ || _); [|reflexivity]. cbn [fst snd app negb].
  case_bool_decide; [|reflexivity]. cbn [fst snd app negb].
  fold (finalized goalId s).
  destruct (rcp _) as [t [[s2 evs2]|]]; cbn [fst snd app];
    rewrite ?app_nil_r; reflexivity.
Qed.

(** ** Storage lemmas *)

Lemma goal_set_goal s goalId g goalId' :
  goal (set_goal goalId g s) goalId' =
  if decide (goalId = goalId') then g else goal s goalId'.
Proof.
  unfold goal, set_goal; simpl. rewrite lookup_insert.
  destruct (decide (goalId = goalId')); reflexivity.
Qed.

Lemma goal_finalized s goalId goalId' :
  goal (finalized goalId s) goalId' =
  if decide (goalId = goalId')
  then with_balance 0 (with_isWithdrawn true (goal s goalId))
  else goal s goalId'.
Proof.
  unfold finalized, set_balance, set_isWithdrawn.
  rewrite !goal_set_goal.
  destruct (decide (goalId = goalId')); [|reflexivity].
  destruct (decide (goalId = goalId)); [reflexivity|congruence].
Qed.

Lemma nextGoalId_finalized s goalId :
  nextGoalId (finalized goalId s) = nextGoalId s.
Proof. reflexivity. Qed.

Lemma ownerGoalsOf_finalized s goalId a :
  ownerGoalsOf (finalized goalId s) a = ownerGoalsOf s a.
Proof. reflexivity. Qed.

Lemma goal_set_balance s goalId b goalId' :
  goal (set_balance goalId b s) goalId' =
  if decide (goalId = goalId') then with_balance b (goal s goalId)
  else goal s goalId'.
Proof. unfold set_balance. apply goal_set_goal. Qed.

Lemma goal_created_store sender ttl dsc tgt dl s goalId' :
  goal (created_store sender ttl dsc tgt dl s) goalId' =
  if decide (nextGoalId s = goalId')
  then mkSavingGoal sender ttl dsc tgt dl 0 false
  else goal s goalId'.
Proof.
  unfold created_store, push_ownerGoal, goal; simpl. rewrite lookup_insert.
  destruct (decide (nextGoalId s = goalId')); reflexivity.
Qed.

Lemma ownerGoalsOf_created_store sender ttl dsc tgt dl s a :
  ownerGoalsOf (created_store sender ttl dsc tgt dl s) a =
  if decide (sender = a) then ownerGoalsOf s sender ++ [nextGoalId s]
  else ownerGoalsOf s a.
Proof.
  unfold created_store, push_ownerGoal, ownerGoalsOf; simpl.
  rewrite lookup_insert. destruct (decide (sender = a)); reflexivity.
Qed.

Lemma nextGoalId_created_store sender ttl dsc tgt dl s :
  nextGoalId (created_store sender ttl dsc tgt dl s) = nextGoalId s + 1.
Proof. reflexivity. Qed.

Lemma goalExists_true s goalId :
  goalExists s goalId = true <-> goalId < nextGoalId s.
Proof. unfold goalExists. apply bool_decide_eq_true. Qed.

Lemma goalExists_false s goalId :
  goalExists s goalId = false <-> ¬ goalId < nextGoalId s.
Proof. unfold goalExists. apply bool_decide_eq_false. Qed.

(** What it takes for the five preconditions of [withdraw] to pass. *)
Lemma withdraw_precheck_None s sender now goalId :
  withdraw_precheck s sender now goalId = None <->
  goalExists s goalId = true /\ sender = owner (goal s goalId) /\
  isWithdrawn (goal s goalId) = false /\
  (deadline (goal s goalId) ≤ now \/
   targetAmount (goal s goalId) ≤ balance (goal s goalId)) /\
  0 < balance (goal s goalId).
Proof.
  unfold withdraw_precheck.
  destruct (goalExists s goalId); simpl; [|intuition discriminate].
  case_bool_decide; simpl; [|intuition discriminate].
  destruct (isWithdrawn (goal s goalId)); simpl; [intuition discriminate|].
  repeat case_bool_decide; simpl; intuition (try discriminate; try lia).
Qed.

(** ** Preservation: a storage predicate kept by the three storage updates
    is kept by every call, nested calls of recipient code included *)

Section Preservation.

Variable P : Ledger -> Prop.

Hypothesis P_created : forall s sender ttl dsc tgt dl,
  P s -> nextGoalId s + 1 ≤ MAX_UINT256 ->
  P (created_store sender ttl dsc tgt dl s).

Hypothesis P_deposited : forall s goalId value,
  P s -> goalExists s goalId = true ->
  isWithdrawn (goal s goalId) = false ->
  P (set_balance goalId (balance (goal s goalId) + value) s).

Hypothesis P_finalized : forall s sender now goalId,
  P s -> withdraw_precheck s sender now goalId = None ->
  P (finalized goalId s).

Lemma createGoal_preserves sender now ttl dsc tgt dl (w : World) n w' :
  P w.1 -> (createGoal sender now ttl dsc tgt dl w).2 = Ok (n, w') ->
  P w'.1.
Proof.
  destruct w as [s evs]. rewrite createGoal_eq. cbn [fst snd]. intros HP H.
  repeat case_bool_decide; try discriminate.
  injection H as _ <-. cbn [fst]. by apply P_created.
Qed.

Lemma deposit_preserves sender value goalId (w : World) u w' :
  P w.1 -> (deposit sender value goalId w).2 = Ok (u, w') -> P w'.1.
Proof.
  destruct w as [s evs]. rewrite deposit_eq. cbn [fst snd]. intros HP H.
  destruct (goalExists s goalId) eqn:He; [|discriminate].
  case_bool_decide; [|discriminate].
  destruct (isWithdrawn (goal s goalId)) eqn:Hw; [discriminate|].
  case_bool_decide; [|discriminate].
  cbv zeta in H. inversion H; subst. cbn [fst]. by apply P_deposited.
Qed.

Lemma withdraw_preserves rcp sender now goalId (w : World) u w' :
  (forall w1 w2, P w1.1 -> (rcp w1).2 = Some w2 -> P w2.1) ->
  P w.1 -> (withdraw rcp sender now goalId w).2 = Ok (u, w') -> P w'.1.
Proof.
  destruct w as [s evs]. rewrite withdraw_eq. cbn [fst snd].
  intros Hrcp HP H.
  destruct (withdraw_precheck s sender now goalId) eqn:Hpre;
    [discriminate|].
  cbv zeta in H.
  destruct (rcp (finalized goalId s, evs)) as [t [[s2 evs2]|]] eqn:Hr;
    [|discriminate].
  inversion H; subst. cbn [fst].
  apply (Hrcp (finalized goalId s, evs) (s2, evs2)).
  - cbn [fst]. by eapply P_finalized.
  - by rewrite Hr.
Qed.

Lemma attempt_preserves {A} (m : Exec A) (w : World) :
  (forall a w', P w.1 -> (m w).2 = Ok (a, w') -> P w'.1) ->
  P w.1 -> P (attempt m w).2.1.
Proof.
  intros Hm HP. unfold attempt.
  destruct (m w) as [t [[a w']|f]] eqn:E; cbn [fst snd]; [|done].
  by apply (Hm a).
Qed.

Lemma run_preserves r now : forall w w',
  P w.1 -> (run r now w).2 = Some w' -> P w'.1.
Proof.
  induction r as [| |sender value goalId k IHk
                 |sender goalId inner IHinner k IHk
                 |sender ttl dsc tgt dl k IHk]; intros w w' HP H; simpl in H.
  - by injection H as <-.
  - discriminate.
  - pose proof (attempt_preserves (deposit sender value goalId) w
      (fun a w' => deposit_preserves sender value goalId w a w') HP) as HP'.
    destruct (attempt _ w) as [[t ok] w1].
    destruct (run (k ok) now w1) as [t' o] eqn:Hk. cbn [snd] in H. subst o.
    apply (IHk ok w1 w'); [exact HP'|by rewrite Hk].
  - pose proof (attempt_preserves
      (withdraw (run inner now) sender now goalId) w
      (fun a w' =>
         withdraw_preserves (run inner now) sender now goalId w a w'
           IHinner) HP) as HP'.
    destruct (attempt _ w) as [[t ok] w1].
    destruct (run (k ok) now w1) as [t' o] eqn:Hk. cbn [snd] in H. subst o.
    apply (IHk ok w1 w'); [exact HP'|by rewrite Hk].
  - pose proof (attempt_preserves
      (createGoal sender now ttl dsc tgt dl) w
      (fun a w' => createGoal_preserves sender now ttl dsc tgt dl w a w')
      HP) as HP'.
    destruct (attempt _ w) as [[t ok] w1].
    destruct (run (k ok) now w1) as [t' o] eqn:Hk. cbn [snd] in H. subst o.
    apply (IHk ok w1 w'); [exact HP'|by rewrite Hk].
Qed.

Lemma transact_preserves {A} (m : Exec A) s :
  (forall a w', P s -> (m (s, [])).2 = Ok (a, w') -> P w'.1) ->
  P s -> P (storage (transact m s)).
Proof.
  intros Hm HP. unfold transact.
  destruct (m (s, [])) as [t [[a [s' evs]]|f]] eqn:E; cbn [storage]; [|done].
  apply (Hm a (s', evs) HP). reflexivity.
Qed.

Lemma exec_preserves s now tx : P s -> P (exec s now tx).
Proof.
  intros HP. destruct tx as [sender ttl dsc tgt dl|sender value goalId
                            |sender goalId r]; cbn [exec];
    apply transact_preserves; try done.
  - intros a w'. apply (createGoal_preserves _ _ _ _ _ _ (s, [])).
  - intros a w'. apply (deposit_preserves _ _ _ (s, [])).
  - intros a w'. apply (withdraw_preserves _ _ _ _ (s, [])).
    apply run_preserves.
Qed.

End Preservation.

(** ** A withdrawn goal stays withdrawn and empty *)

Lemma sealed_created goalId s sender ttl dsc tgt dl :
  sealed goalId s -> nextGoalId s + 1 ≤ MAX_UINT256 ->
  sealed goalId (created_store sender ttl dsc tgt dl s).
Proof.
  intros (Hlt & Hw & Hb) _. unfold sealed.
  rewrite goal_created_store, nextGoalId_created_store.
  destruct (decide (nextGoalId s = goalId)); [lia|].
  repeat split; [lia|done|done].
Qed.

Lemma sealed_deposited goalId s goalId' value :
  sealed goalId s -> goalExists s goalId' = true ->
  isWithdrawn (goal s goalId') = false ->
  sealed goalId (set_balance goalId' (balance (goal s goalId') + value) s).
Proof.
  intros (Hlt & Hw & Hb) _ Hnw. unfold sealed.
  rewrite goal_set_balance.
  destruct (decide (goalId' = goalId)) as [->|]; [congruence|].
  repeat split; done.
Qed.

Lemma sealed_finalized goalId s sender now goalId' :
  sealed goalId s -> withdraw_precheck s sender now goalId' = None ->
  sealed goalId (finalized goalId' s).
Proof.
  intros (Hlt & Hw & Hb) Hpre.
  apply withdraw_precheck_None in Hpre as (_ & _ & Hnw & _).
  unfold sealed. rewrite goal_finalized, nextGoalId_finalized.
  destruct (decide (goalId' = goalId)) as [->|]; [congruence|].
  repeat split; done.
Qed.

Lemma sealed_after_finalized goalId s :
  goalExists s goalId = true -> sealed goalId (finalized goalId s).
Proof.
  intros He%goalExists_true. unfold sealed.
  rewrite goal_finalized, nextGoalId_finalized.
  destruct (decide (goalId = goalId)); [|congruence].
  repeat split; done.
Qed.

Lemma deposit_sealed_fails goalId s sender value evs :
  isWithdrawn (goal s goalId) = true ->
  exists f, deposit sender value goalId (s, evs) = ([], Fail f).
Proof.
  intros Hw. rewrite deposit_eq, Hw.
  destruct (goalExists s goalId); [|eauto].
  case_bool_decide; eauto.
Qed.

Lemma withdraw_sealed_fails goalId s rcp sender now evs :
  isWithdrawn (goal s goalId) = true ->
  exists f, withdraw rcp sender now goalId (s, evs) = ([], Fail f).
Proof.
  intros Hw. rewrite withdraw_eq. unfold withdraw_precheck. rewrite Hw.
  destruct (goalExists s goalId); simpl; [|eauto].
  case_bool_decide; simpl; eauto.
Qed.

Lemma createGoal_trace sender now ttl dsc tgt dl w :
  (createGoal sender now ttl dsc tgt dl w).1 = [].
Proof. destruct w. by rewrite createGoal_eq. Qed.

Lemma deposit_trace sender value goalId w :
  (deposit sender value goalId w).1 = [].
Proof. destruct w. by rewrite deposit_eq. Qed.

Lemma attempt_trace {A} (m : Exec A) w : (attempt m w).1.1 = (m w).1.
Proof. unfold attempt. by destruct (m w) as [t [[a w']|f]]. Qed.

Lemma attempt_ok_false {A} (m : Exec A) w f t :
  m w = (t, Fail f) -> attempt m w = (t, false, w).
Proof. unfold attempt. by intros ->. Qed.

Lemma run_blocked goalId r now : forall w,
  sealed goalId w.1 -> Forall (blocked goalId) (run r now w).1.
Proof.
  induction r as [| |sender value goalId' k IHk
                 |sender goalId' inner IHinner k IHk
                 |sender ttl dsc tgt dl k IHk]; intros [s evs] Hs;
    cbn [fst] in Hs; simpl.
  - constructor.
  - constructor.
  - pose proof (attempt_preserves (sealed goalId)
      (deposit sender value goalId') (s, evs)
      (fun a w' => deposit_preserves _ (sealed_deposited goalId)
                     sender value goalId' (s, evs) a w') Hs) as Hs'.
    pose proof (attempt_trace (deposit sender value goalId') (s, evs)) as Ht.
    rewrite deposit_trace in Ht.
    assert (goalId' = goalId -> (attempt (deposit sender value goalId')
                                   (s, evs)).1.2 = false) as Hok.
    { intros ->. destruct Hs as (_ & Hw & _).
      destruct (deposit_sealed_fails goalId s sender value evs Hw) as [f E].
      by rewrite (attempt_ok_false _ _ _ _ E). }
    destruct (attempt _ (s, evs)) as [[t ok] w1]. cbn [fst snd] in *.
    subst t. specialize (IHk ok w1 Hs').
    destruct (run (k ok) now w1) as [t' o]. cbn [fst snd] in *.
    constructor; [|exact IHk].
    intros ->. destruct Hs as (_ & Hw & Hb). auto.
  - assert (sealed goalId (attempt (withdraw (run inner now) sender now
                                      goalId') (s, evs)).2.1) as Hs'.
    { apply attempt_preserves; [|exact Hs]. intros a w' _.
      apply (withdraw_preserves (sealed goalId) (sealed_finalized goalId));
        [|exact Hs].
      apply run_preserves.
      - apply sealed_created.
      - apply sealed_deposited.
      - apply sealed_finalized. }
    assert (Forall (blocked goalId)
              (attempt (withdraw (run inner now) sender now goalId')
                 (s, evs)).1.1) as Ht.
    { rewrite attempt_trace, withdraw_eq.
      destruct (withdraw_precheck s sender now goalId') eqn:Hpre;
        [constructor|].
      cbv zeta.
      assert (goalId' ≠ goalId) as Hne.
      { intros ->. destruct Hs as (_ & Hw & _).
        apply withdraw_precheck_None in Hpre as (_ & _ & Hnw & _).
        congruence. }
      pose proof (IHinner (finalized goalId' s, evs)
                    (sealed_finalized _ _ _ _ _ Hs Hpre)) as Hin.
      destruct (run inner now (finalized goalId' s, evs))
        as [t [[s2 evs2]|]]; cbn [fst snd] in *;
        (constructor; [exact Hne|exact Hin]). }
    assert (goalId' = goalId ->
            (attempt (withdraw (run inner now) sender now goalId')
               (s, evs)).1.2 = false) as Hok.
    { intros ->. destruct Hs as (_ & Hw & _).
      destruct (withdraw_sealed_fails goalId s (run inner now) sender now evs
                  Hw) as [f E].
      by rewrite (attempt_ok_false _ _ _ _ E). }
    destruct (attempt _ (s, evs)) as [[t ok] w1]. cbn [fst snd] in *.
    specialize (IHk ok w1 Hs').
    destruct (run (k ok) now w1) as [t' o]. cbn [fst snd] in *.
    constructor; [|by apply Forall_app].
    intros ->. destruct Hs as (_ & Hw & Hb). auto.
  - pose proof (attempt_preserves (sealed goalId)
      (createGoal sender now ttl dsc tgt dl) (s, evs)
      (fun a w' => createGoal_preserves _ (sealed_created goalId)
                     sender now ttl dsc tgt dl (s, evs) a w') Hs) as Hs'.
    pose proof (attempt_trace (createGoal sender now ttl dsc tgt dl) (s, evs))
      as Ht.
    rewrite createGoal_trace in Ht.
    destruct (attempt _ (s, evs)) as [[t ok] w1]. cbn [fst snd] in *.
    subst t. specialize (IHk ok w1 Hs').
    destruct (run (k ok) now w1) as [t' o]. cbn [fst snd] in *.
    constructor; [done|exact IHk].
Qed.

Lemma reaches_preserves (P : Ledger -> Prop) :
  (forall s sender ttl dsc tgt dl,
     P s -> nextGoalId s + 1 ≤ MAX_UINT256 ->
     P (created_store sender ttl dsc tgt dl s)) ->
  (forall s goalId value,
     P s -> goalExists s goalId = true ->
     isWithdrawn (goal s goalId) = false ->
     P (set_balance goalId (balance (goal s goalId) + value) s)) ->
  (forall s sender now goalId,
     P s -> withdraw_precheck s sender now goalId = None ->
     P (finalized goalId s)) ->
  forall s s', P s -> reaches s s' -> P s'.
Proof.
  intros Hc Hd Hf s s' HP Hr.
  induction Hr as [|s' now tx Hr IH]; [exact HP|].
  by apply exec_preserves.
Qed.

Lemma reaches_trans s1 s2 s3 : reaches s1 s2 -> reaches s2 s3 -> reaches s1 s3.
Proof.
  intros H12 H23. induction H23; [exact H12|]. by apply reaches_step.
Qed.

(** ** withdraw: effects before interaction *)

(** C1. Whenever [withdraw] succeeds on a goal, the first thing that happens
    after the checks is the hand-over to the transfer, and at that moment
    storage already holds the goal with [isWithdrawn = true] and
    [balance = 0]; the amount handed over is the goal's balance before the
    call.  Whatever the recipient code does during the transfer, every
    [withdraw] or [deposit] it makes on the same goal finds the goal
    withdrawn and empty and fails, no second hand-over for the goal is
    started, the goal is withdrawn and empty when the call returns, and in
    every state reached later [withdraw] on the goal fails before any
    hand-over. *)
Theorem withdraw_finalizes_before_transfer
    (r : Recv) (sender : address) (now goalId : N) (s : Ledger)
    (evs : list Event) (w' : World) :
  (withdraw (run r now) sender now goalId (s, evs)).2 = Ok (tt, w') ->
  exists g t,
    (withdraw (run r now) sender now goalId (s, evs)).1 =
      Handed goalId sender (balance (goal s goalId)) g :: t /\
    g = goal (finalized goalId s) goalId /\
    isWithdrawn g = true /\ balance g = 0 /\
    Forall (blocked goalId) t /\
    isWithdrawn (goal w'.1 goalId) = true /\ balance (goal w'.1 goalId) = 0 /\
    (forall s'' rcp sender' now' evs',
       reaches w'.1 s'' ->
       exists f, withdraw rcp sender' now' goalId (s'', evs') = ([], Fail f)).
Proof.
  rewrite withdraw_eq.
  destruct (withdraw_precheck s sender now goalId) eqn:Hpre;
    [discriminate|].
  cbv zeta.
  pose proof Hpre as (He & _)%withdraw_precheck_None.
  pose proof (sealed_after_finalized goalId s He) as Hs.
  pose proof (run_blocked goalId r now (finalized goalId s, evs) Hs) as Hb.
  pose proof (run_preserves (sealed goalId) (sealed_created goalId)
                (sealed_deposited goalId) (sealed_finalized goalId)
                r now (finalized goalId s, evs)) as Hp.
  destruct (run r now (finalized goalId s, evs)) as [t [[s2 evs2]|]];
    cbn [fst snd] in *; [|discriminate].
  intros H. inversion H; subst. clear H.
  pose proof (Hp _ Hs eq_refl) as Hs2.
  destruct Hs2 as (Hlt2 & Hw2 & Hb2).
  destruct Hs as (_ & Hw1 & Hb1).
  exists (goal (finalized goalId s) goalId), t.
  do 7 (split; [done|]).
  intros s'' rcp sender' now' evs' Hr.
  apply withdraw_sealed_fails.
  apply (reaches_preserves (sealed goalId) (sealed_created goalId)
           (sealed_deposited goalId) (sealed_finalized goalId) s2 s'');
    [|exact Hr].
  repeat split; done.
Qed.

Lemma withdraw_finalizes_before_transfer_witness :
  exists g t,
    (withdraw (run Scenarios.greedy 103) Scenarios.alice 103 0
       (Scenarios.s3, [])).1 =
      Handed 0 Scenarios.alice (balance (goal Scenarios.s3 0)) g :: t /\
    g = goal (finalized 0 Scenarios.s3) 0 /\
    isWithdrawn g = true /\ balance g = 0 /\
    Forall (blocked 0) t /\
    isWithdrawn (goal Scenarios.s4 0) = true /\
    balance (goal Scenarios.s4 0) = 0 /\
    (forall s'' rcp sender' now' evs',
       reaches Scenarios.s4 s'' ->
       exists f, withdraw rcp sender' now' 0 (s'', evs') = ([], Fail f)).
Proof.
  apply (withdraw_finalizes_before_transfer Scenarios.greedy Scenarios.alice
           103 0 Scenarios.s3 [] (Scenarios.s4, [Withdrawn 0 Scenarios.alice
                                                   Scenarios.TWO_ETH])).
  vm_compute. reflexivity.
Defined.

(** ** withdraw: the order of the checks *)

(** C2. [withdraw] checks, in this order and each with a reason of its own:
    the goal exists, the caller is its owner, it is not yet withdrawn, the
    deadline has passed or the target is reached, the balance is positive.
    A goal with zero balance is refused even after its deadline.  When all
    five hold, the call goes on to the transfer. *)
Theorem withdraw_checks_in_order
    (rcp : World -> list Obs * option World) (sender : address)
    (now goalId : N) (s : Ledger) (evs : list Event) :
  (¬ goalId < nextGoalId s ->
   withdraw rcp sender now goalId (s, evs) =
     ([], Fail (Revert "Goal does not exist"))) /\
  (goalId < nextGoalId s -> sender ≠ owner (goal s goalId) ->
   withdraw rcp sender now goalId (s, evs) =
     ([], Fail (Revert "Only goal owner can withdraw"))) /\
  (goalId < nextGoalId s -> sender = owner (goal s goalId) ->
   isWithdrawn (goal s goalId) = true ->
   withdraw rcp sender now goalId (s, evs) =
     ([], Fail (Revert "Goal has already been withdrawn"))) /\
  (goalId < nextGoalId s -> sender = owner (goal s goalId) ->
   isWithdrawn (goal s goalId) = false ->
   now < deadline (goal s goalId) ->
   balance (goal s goalId) < targetAmount (goal s goalId) ->
   withdraw rcp sender now goalId (s, evs) =
     ([], Fail (Revert
        "Cannot withdraw: deadline not passed and target not reached"))) /\
  (goalId < nextGoalId s -> sender = owner (goal s goalId) ->
   isWithdrawn (goal s goalId) = false ->
   deadline (goal s goalId) ≤ now \/
     targetAmount (goal s goalId) ≤ balance (goal s goalId) ->
   balance (goal s goalId) = 0 ->
   withdraw rcp sender now goalId (s, evs) =
     ([], Fail (Revert "No balance to withdraw"))) /\
  (goalId < nextGoalId s -> sender = owner (goal s goalId) ->
   isWithdrawn (goal s goalId) = false ->
   deadline (goal s goalId) ≤ now \/
     targetAmount (goal s goalId) ≤ balance (goal s goalId) ->
   0 < balance (goal s goalId) ->
   exists t, (withdraw rcp sender now goalId (s, evs)).1 =
     Handed goalId sender (balance (goal s goalId))
            (goal (finalized goalId s) goalId) :: t) /\
  NoDup ["Goal does not exist"; "Only goal owner can withdraw";
         "Goal has already been withdrawn";
         "Cannot withdraw: deadline not passed and target not reached";
         "No balance to withdraw"; "Transfer failed"].
Proof.
  rewrite withdraw_eq. unfold withdraw_precheck, goalExists.
  repeat split.
  - intros H. by rewrite bool_decide_eq_false_2.
  - intros H1 H2. rewrite bool_decide_eq_true_2 by done.
    by rewrite (bool_decide_eq_false_2 _ H2).
  - intros H1 H2 H3. rewrite !bool_decide_eq_true_2 by done.
    by rewrite H3.
  - intros H1 H2 H3 H4 H5. rewrite !bool_decide_eq_true_2 by done.
    rewrite H3. rewrite !bool_decide_eq_false_2 by lia. done.
  - intros H1 H2 H3 H4 H5. rewrite !bool_decide_eq_true_2 by done.
    rewrite H3. simpl.
    replace (_ || _) with true
      by (symmetry; destruct H4;
          [rewrite (bool_decide_eq_true_2 _ H)
          |rewrite (bool_decide_eq_true_2 (targetAmount _ ≤ _) H)];
          auto using orb_true_r).
    simpl. rewrite bool_decide_eq_false_2 by lia. done.
  - intros H1 H2 H3 H4 H5. rewrite !bool_decide_eq_true_2 by done.
    rewrite H3. simpl.
    replace (_ || _) with true
      by (symmetry; destruct H4;
          [rewrite (bool_decide_eq_true_2 _ H)
          |rewrite (bool_decide_eq_true_2 (targetAmount _ ≤ _) H)];
          auto using orb_true_r).
    simpl. rewrite bool_decide_eq_true_2 by lia. simpl.
    destruct (rcp _) as [t [[s2 evs2]|]]; eauto.
  - apply (bool_decide_unpack _). vm_compute. exact I.
Qed.

Lemma withdraw_checks_in_order_witness :
  withdraw (run Accept 103) Scenarios.alice 103 7 (Scenarios.s3, []) =
    ([], Fail (Revert "Goal does not exist")) /\
  withdraw (run Accept 103) Scenarios.bob 103 0 (Scenarios.s3, []) =
    ([], Fail (Revert "Only goal owner can withdraw")) /\
  withdraw (run Accept 104) Scenarios.alice 104 0 (Scenarios.s4, []) =
    ([], Fail (Revert "Goal has already been withdrawn")) /\
  withdraw (run Accept 102) Scenarios.alice 102 0 (Scenarios.s2, []) =
    ([], Fail (Revert
       "Cannot withdraw: deadline not passed and target not reached")) /\
  withdraw (run Accept (101 + Scenarios.day)) Scenarios.alice
      (101 + Scenarios.day) 0 (Scenarios.s1, []) =
    ([], Fail (Revert "No balance to withdraw")).
Proof.
  split; [|split; [|split; [|split]]].
  - apply (proj1 (withdraw_checks_in_order (run Accept 103) Scenarios.alice
                    103 7 Scenarios.s3 [])).
    by vm_compute.
  - apply (proj1 (proj2 (withdraw_checks_in_order (run Accept 103)
                           Scenarios.bob 103 0 Scenarios.s3 [])));
      by vm_compute.
  - apply (proj1 (proj2 (proj2 (withdraw_checks_in_order (run Accept 104)
                                  Scenarios.alice 104 0 Scenarios.s4 []))));
      by vm_compute.
  - apply (proj1 (proj2 (proj2 (proj2
             (withdraw_checks_in_order (run Accept 102) Scenarios.alice 102 0
                Scenarios.s2 [])))));
      by vm_compute.
  - apply (proj1 (proj2 (proj2 (proj2 (proj2
             (withdraw_checks_in_order (run Accept (101 + Scenarios.day))
                Scenarios.alice (101 + Scenarios.day) 0 Scenarios.s1 []))))));
      try (by vm_compute).
    left. by vm_compute.
Defined.

(** ** canWithdraw *)

(** C3. [canWithdraw] is false when the goal is absent, withdrawn or empty;
    otherwise it is true exactly when the deadline has passed or the target
    is reached.  It is the conjunction of the preconditions of [withdraw]
    other than ownership: the owner's [withdraw], with a recipient that
    accepts the funds, succeeds exactly when [canWithdraw] is true.  Being a
    function from storage to [bool], it returns on every input and has no
    storage to change. *)
Theorem canWithdraw_mirrors_withdraw (s : Ledger) (now goalId : N) :
  (¬ goalId < nextGoalId s \/ isWithdrawn (goal s goalId) = true \/
   balance (goal s goalId) = 0 ->
   canWithdraw s now goalId = false) /\
  (goalId < nextGoalId s -> isWithdrawn (goal s goalId) = false ->
   balance (goal s goalId) ≠ 0 ->
   (canWithdraw s now goalId = true <->
    deadline (goal s goalId) ≤ now \/
    targetAmount (goal s goalId) ≤ balance (goal s goalId))) /\
  canWithdraw s now goalId =
    goalExists s goalId && negb (isWithdrawn (goal s goalId)) &&
    (bool_decide (deadline (goal s goalId) ≤ now) ||
     bool_decide (targetAmount (goal s goalId) ≤ balance (goal s goalId))) &&
    bool_decide (0 < balance (goal s goalId)) /\
  (forall sender evs,
     canWithdraw s now goalId = true /\ sender = owner (goal s goalId) <->
     exists w', (withdraw (run Accept now) sender now goalId (s, evs)).2 =
                Ok (tt, w')).
Proof.
  assert (canWithdraw s now goalId =
    goalExists s goalId && negb (isWithdrawn (goal s goalId)) &&
    (bool_decide (deadline (goal s goalId) ≤ now) ||
     bool_decide (targetAmount (goal s goalId) ≤ balance (goal s goalId))) &&
    bool_decide (0 < balance (goal s goalId))) as Heq.
  { unfold canWithdraw.
    destruct (goalExists s goalId); simpl; [|done].
    destruct (isWithdrawn (goal s goalId)); simpl; [done|].
    repeat case_bool_decide; simpl; try done; lia. }
  split; [|split; [|split]].
  - rewrite Heq. unfold goalExists. intros [H|[H|H]].
    + by rewrite (bool_decide_eq_false_2 _ H).
    + rewrite H. by rewrite andb_false_r.
    + rewrite (bool_decide_eq_false_2 (0 < _)) by lia.
      by rewrite andb_false_r.
  - intros H1 H2 H3. rewrite Heq. unfold goalExists.
    rewrite (bool_decide_eq_true_2 _ H1), H2. simpl.
    rewrite (bool_decide_eq_true_2 (0 < _)) by lia. rewrite andb_true_r.
    rewrite orb_true_iff, !bool_decide_eq_true. done.
  - exact Heq.
  - intros sender evs. rewrite withdraw_eq. cbv zeta.
    destruct (withdraw_precheck s sender now goalId) eqn:Hpre.
    + split; [|intros [w' Hw']; discriminate].
      intros [Hc ->]. exfalso.
      assert (withdraw_precheck s (owner (goal s goalId)) now goalId = None)
        as Hn; [|congruence].
      apply withdraw_precheck_None. rewrite Heq in Hc.
      rewrite !andb_true_iff, orb_true_iff, negb_true_iff,
        !bool_decide_eq_true in Hc.
      destruct Hc as [[[He Hw] Hd] Hb]. done.
    + simpl. split; [eauto|]. intros _.
      apply withdraw_precheck_None in Hpre as (He & Ho & Hw & Hd & Hb).
      split; [|done]. rewrite Heq, He, Hw. simpl.
      rewrite (bool_decide_eq_true_2 (0 < _)) by done. rewrite andb_true_r.
      rewrite orb_true_iff, !bool_decide_eq_true. done.
Qed.

Lemma canWithdraw_mirrors_withdraw_witness :
  canWithdraw Scenarios.s4 104 0 = false /\
  (canWithdraw Scenarios.s3 103 0 = true <->
   deadline (goal Scenarios.s3 0) ≤ 103 \/
   targetAmount (goal Scenarios.s3 0) ≤ balance (goal Scenarios.s3 0)).
Proof.
  split.
  - apply (proj1 (canWithdraw_mirrors_withdraw Scenarios.s4 104 0)).
    right. left. by vm_compute.
  - apply (proj1 (proj2 (canWithdraw_mirrors_withdraw Scenarios.s3 103 0)));
      by vm_compute.
Defined.

(** ** Invariants of reachable storage *)

Lemma withdrawn_exists_reachable s : reachable s -> withdrawn_exists s.
Proof.
  apply (reaches_preserves withdrawn_exists); unfold withdrawn_exists.
  - intros s0 sender ttl dsc tgt dl IH _ goalId.
    rewrite goal_created_store, nextGoalId_created_store.
    destruct (decide (nextGoalId s0 = goalId)); [done|].
    intros H%IH. lia.
  - intros s0 goalId' value IH He Hw goalId. rewrite goal_set_balance.
    destruct (decide (goalId' = goalId)) as [->|]; [|apply IH].
    simpl. congruence.
  - intros s0 sender now goalId' IH Hpre goalId.
    rewrite goal_finalized, nextGoalId_finalized.
    destruct (decide (goalId' = goalId)) as [->|]; [|apply IH].
    intros _. apply withdraw_precheck_None in Hpre as (He & _).
    by apply goalExists_true.
  - intros goalId. discriminate.
Qed.

Lemma withdrawn_empty_reachable s : reachable s -> withdrawn_empty s.
Proof.
  apply (reaches_preserves withdrawn_empty); unfold withdrawn_empty.
  - intros s0 sender ttl dsc tgt dl IH _ goalId. rewrite goal_created_store.
    destruct (decide (nextGoalId s0 = goalId)); [done|apply IH].
  - intros s0 goalId' value IH He Hw goalId. rewrite goal_set_balance.
    destruct (decide (goalId' = goalId)) as [->|]; [|apply IH].
    simpl. congruence.
  - intros s0 sender now goalId' IH Hpre goalId. rewrite goal_finalized.
    destruct (decide (goalId' = goalId)) as [->|]; [done|apply IH].
  - intros goalId. discriminate.
Qed.

(** C4. In every reachable state a withdrawn goal has balance 0; from then
    on, whatever transactions follow, it is still withdrawn and its balance
    is still 0; and [deposit] refuses a withdrawn goal (with the reason
    "Goal has already been withdrawn" when a positive amount is sent). *)
Theorem withdrawn_goal_is_final (s : Ledger) :
  reachable s ->
  (forall goalId, isWithdrawn (goal s goalId) = true ->
                  balance (goal s goalId) = 0) /\
  (forall s' goalId,
     reaches s s' -> isWithdrawn (goal s goalId) = true ->
     isWithdrawn (goal s' goalId) = true /\ balance (goal s' goalId) = 0) /\
  (forall sender value goalId evs,
     isWithdrawn (goal s goalId) = true ->
     (exists f, deposit sender value goalId (s, evs) = ([], Fail f)) /\
     (0 < value ->
      deposit sender value goalId (s, evs) =
        ([], Fail (Revert "Goal has already been withdrawn")))).
Proof.
  intros Hr. split; [|split].
  - by apply withdrawn_empty_reachable.
  - intros s' goalId Hs Hw.
    assert (sealed goalId s) as Hsl.
    { repeat split; [by apply withdrawn_exists_reachable|done
                    |by apply withdrawn_empty_reachable]. }
    apply (reaches_preserves (sealed goalId) (sealed_created goalId)
             (sealed_deposited goalId) (sealed_finalized goalId) s s' Hsl Hs).
  - intros sender value goalId evs Hw.
    split; [by apply deposit_sealed_fails|].
    intros Hv. rewrite deposit_eq, Hw.
    pose proof (withdrawn_exists_reachable s Hr goalId Hw) as He.
    apply goalExists_true in He. rewrite He.
    by rewrite (bool_decide_eq_true_2 _ Hv).
Qed.

Lemma scenario_reachable : reachable Scenarios.s4.
Proof.
  unfold reachable, Scenarios.s4, Scenarios.s3, Scenarios.s2, Scenarios.s1.
  repeat apply reaches_step. apply reaches_refl.
Qed.

Lemma withdrawn_goal_is_final_witness :
  balance (goal Scenarios.s4 0) = 0 /\
  deposit Scenarios.bob Scenarios.ONE_ETH 0 (Scenarios.s4, []) =
    ([], Fail (Revert "Goal has already been withdrawn")).
Proof.
  split.
  - apply (proj1 (withdrawn_goal_is_final Scenarios.s4 scenario_reachable)).
    by vm_compute.
  - apply (proj2 (proj2 (withdrawn_goal_is_final Scenarios.s4
                           scenario_reachable))); by vm_compute.
Defined.

(** ** The owner index *)

Lemma ids_succ n : ids (n + 1) = ids n ++ [n].
Proof.
  unfold ids. replace (N.to_nat (n + 1)) with (S (N.to_nat n)) by lia.
  rewrite seq_S, fmap_app. simpl. by rewrite N2Nat.id.
Qed.

Lemma elem_of_ids n goalId : goalId ∈ ids n <-> goalId < n.
Proof.
  unfold ids. rewrite list_elem_of_fmap. split.
  - intros (k & -> & Hk%elem_of_seq). lia.
  - intros H. exists (N.to_nat goalId). rewrite elem_of_seq. lia.
Qed.

Lemma NoDup_ids n : NoDup (ids n).
Proof.
  unfold ids. apply NoDup_fmap_2; [|apply NoDup_seq].
  intros x y H. lia.
Qed.

Lemma ids_sorted n : StronglySorted N.lt (ids n).
Proof.
  induction n as [|n IH] using N.peano_ind; [constructor|].
  rewrite <- N.add_1_r, ids_succ. apply StronglySorted_app.
  split; [|split; [exact IH|repeat constructor]].
  intros x1 x2 H1%elem_of_ids H2%list_elem_of_singleton. lia.
Qed.

Lemma filter_sorted (P : N -> Prop) `{forall x, Decision (P x)} (l : list N) :
  StronglySorted N.lt l -> StronglySorted N.lt (filter P l).
Proof.
  induction l as [|x l IH]; [done|].
  rewrite StronglySorted_cons. intros [Hx Hl]. rewrite filter_cons.
  destruct (decide (P x)); [|by apply IH].
  apply StronglySorted_cons. split; [|by apply IH].
  apply Forall_forall. intros y [_ Hy]%list_elem_of_filter.
  by apply (proj1 (Forall_forall _ _) Hx).
Qed.

Lemma filter_ext_in (P Q : N -> Prop) `{forall x, Decision (P x)}
    `{forall x, Decision (Q x)} (l : list N) :
  (forall x, x ∈ l -> (P x <-> Q x)) -> filter P l = filter Q l.
Proof.
  induction l as [|x l IH]; intros HPQ; [done|].
  rewrite !filter_cons.
  assert (filter P l = filter Q l) as ->.
  { apply IH. intros y Hy. apply HPQ. by right. }
  pose proof (HPQ x (list_elem_of_here _ _)).
  destruct (decide (P x)), (decide (Q x)); tauto.
Qed.

Lemma owner_index_ok_reachable s : reachable s -> owner_index_ok s.
Proof.
  apply (reaches_preserves owner_index_ok); unfold owner_index_ok.
  - intros s0 sender ttl dsc tgt dl IH _ a.
    rewrite ownerGoalsOf_created_store, nextGoalId_created_store, ids_succ,
      filter_app, filter_singleton, goal_created_store; [|exact []].
    destruct (decide (nextGoalId s0 = nextGoalId s0)); [|done]. simpl.
    assert (filter (fun goalId =>
                      owner (goal (created_store sender ttl dsc tgt dl s0)
                                  goalId) = a) (ids (nextGoalId s0))
            = filter (fun goalId => owner (goal s0 goalId) = a)
                     (ids (nextGoalId s0))) as ->.
    { apply filter_ext_in. intros x Hx%elem_of_ids.
      rewrite goal_created_store.
      destruct (decide (nextGoalId s0 = x)); [lia|done]. }
    destruct (decide (sender = a)) as [->|Hne].
    + by rewrite IH.
    + by rewrite app_nil_r.
  - intros s0 goalId' value IH He Hw a.
    change (ownerGoalsOf (set_balance goalId' _ s0) a)
      with (ownerGoalsOf s0 a).
    change (nextGoalId (set_balance goalId' _ s0)) with (nextGoalId s0).
    rewrite IH. apply filter_ext_in. intros x _. rewrite goal_set_balance.
    destruct (decide (goalId' = x)) as [->|]; done.
  - intros s0 sender now goalId' IH Hpre a.
    rewrite ownerGoalsOf_finalized, nextGoalId_finalized, IH.
    apply filter_ext_in. intros x _. rewrite goal_finalized.
    destruct (decide (goalId' = x)) as [->|]; done.
  - intros a. done.
Qed.

(** C7. In every reachable state [getGoalsByOwner] returns, for every
    identity, exactly the ids of the existing goals whose owner is that
    identity, in the order the ids were allocated, each once; for an
    identity that owns no goal it returns the empty list.  It is a total
    function: it has no failing case. *)
Theorem getGoalsByOwner_exact (s : Ledger) (a : address) :
  reachable s ->
  getGoalsByOwner s a =
    filter (fun goalId => owner (goal s goalId) = a) (ids (getTotalGoals s)) /\
  (forall goalId, goalId ∈ getGoalsByOwner s a <->
                  goalExists s goalId = true /\ owner (goal s goalId) = a) /\
  NoDup (getGoalsByOwner s a) /\
  StronglySorted N.lt (getGoalsByOwner s a) /\
  ((forall goalId, goalExists s goalId = true -> owner (goal s goalId) ≠ a) ->
   getGoalsByOwner s a = []).
Proof.
  intros Hr. pose proof (owner_index_ok_reachable s Hr a) as Hidx.
  unfold getGoalsByOwner, getTotalGoals. rewrite Hidx.
  split; [done|split; [|split; [|split]]].
  - intros goalId.
    rewrite list_elem_of_filter, elem_of_ids, goalExists_true. tauto.
  - apply NoDup_filter, NoDup_ids.
  - apply filter_sorted, ids_sorted.
  - intros Hnone.
    destruct (filter _ _) as [|x l] eqn:E; [done|]. exfalso.
    assert (x ∈ filter (fun goalId => owner (goal s goalId) = a)
                   (ids (nextGoalId s))) as Hx
      by (rewrite E; left).
    apply list_elem_of_filter in Hx as [Ho Hx%elem_of_ids].
    by apply (Hnone x); [apply goalExists_true|].
Qed.

Lemma getGoalsByOwner_exact_witness :
  getGoalsByOwner Scenarios.s4 Scenarios.alice =
    filter (fun goalId => owner (goal Scenarios.s4 goalId) = Scenarios.alice)
           (ids (getTotalGoals Scenarios.s4)) /\
  getGoalsByOwner Scenarios.s4 Scenarios.carol = [].
Proof.
  split.
  - apply (proj1 (getGoalsByOwner_exact Scenarios.s4 Scenarios.alice
                    scenario_reachable)).
  - apply (proj2 (proj2 (proj2 (proj2
             (getGoalsByOwner_exact Scenarios.s4 Scenarios.carol
                scenario_reachable))))).
    intros goalId He%goalExists_true.
    assert (nextGoalId Scenarios.s4 = 1) as Hn by (vm_compute; reflexivity).
    assert (goalId = 0) as -> by lia.
    by vm_compute.
Defined.

(** ** withdraw: a failed transfer undoes everything *)

(** C5. When the five checks pass and the transfer fails, [withdraw] fails
    with "Transfer failed", storage is what it was before the call (the
    goal's flag and balance included) and nothing is logged; when the
    transfer succeeds, [Withdrawn] is the last event logged, after whatever
    the transfer itself logged. *)
Theorem failed_transfer_reverts
    (rcp : World -> list Obs * option World) (sender : address)
    (now goalId : N) (s : Ledger) :
  goalExists s goalId = true -> sender = owner (goal s goalId) ->
  isWithdrawn (goal s goalId) = false ->
  deadline (goal s goalId) ≤ now \/
    targetAmount (goal s goalId) ≤ balance (goal s goalId) ->
  0 < balance (goal s goalId) ->
  ((rcp (finalized goalId s, [])).2 = None ->
   outcome (transact (withdraw rcp sender now goalId) s) =
     Fail (Revert "Transfer failed") /\
   storage (transact (withdraw rcp sender now goalId) s) = s /\
   goal (storage (transact (withdraw rcp sender now goalId) s)) goalId =
     goal s goalId /\
   logs (transact (withdraw rcp sender now goalId) s) = []) /\
  (forall s2 evs2,
     (rcp (finalized goalId s, [])).2 = Some (s2, evs2) ->
     outcome (transact (withdraw rcp sender now goalId) s) = Ok tt /\
     storage (transact (withdraw rcp sender now goalId) s) = s2 /\
     logs (transact (withdraw rcp sender now goalId) s) =
       evs2 ++ [Withdrawn goalId sender (balance (goal s goalId))]).
Proof.
  intros He Ho Hw Hd Hb.
  assert (withdraw_precheck s sender now goalId = None) as Hpre
    by (by apply withdraw_precheck_None).
  unfold transact. rewrite withdraw_eq, Hpre. cbv zeta.
  destruct (rcp (finalized goalId s, [])) as [t [[s2 evs2]|]];
    cbn [fst snd]; split.
  - discriminate.
  - intros s2' evs2' H. by inversion H; subst.
  - done.
  - discriminate.
Qed.

Lemma failed_transfer_reverts_witness :
  outcome (transact (withdraw (run Refuse 103) Scenarios.alice 103 0)
             Scenarios.s3) = Fail (Revert "Transfer failed") /\
  storage (transact (withdraw (run Refuse 103) Scenarios.alice 103 0)
             Scenarios.s3) = Scenarios.s3 /\
  goal (storage (transact (withdraw (run Refuse 103) Scenarios.alice 103 0)
                   Scenarios.s3)) 0 = goal Scenarios.s3 0 /\
  logs (transact (withdraw (run Refuse 103) Scenarios.alice 103 0)
          Scenarios.s3) = [].
Proof.
  apply (proj1 (failed_transfer_reverts (run Refuse 103) Scenarios.alice 103
                  0 Scenarios.s3
                  ltac:(vm_compute; reflexivity)
                  ltac:(vm_compute; reflexivity)
                  ltac:(vm_compute; reflexivity)
                  ltac:(right; vm_compute; discriminate)
                  ltac:(vm_compute; reflexivity))).
  vm_compute. reflexivity.
Defined.

(** ** createGoal *)

Lemma createGoal_valid sender now ttl dsc tgt dl s :
  0 < tgt -> now < dl -> ttl ≠ EmptyString ->
  nextGoalId s < MAX_UINT256 ->
  createGoal sender now ttl dsc tgt dl (s, []) =
    ([], Ok (nextGoalId s, (created_store sender ttl dsc tgt dl s,
                            [GoalCreated (nextGoalId s) sender tgt dl]))).
Proof.
  intros Ht Hd Hn Hc. rewrite createGoal_eq.
  assert (0 < String.length ttl)%nat as Hl by (destruct ttl; [done|simpl; lia]).
  assert (nextGoalId s + 1 ≤ MAX_UINT256) as Hc' by lia.
  by rewrite (bool_decide_eq_true_2 _ Ht), (bool_decide_eq_true_2 _ Hd),
    (bool_decide_eq_true_2 _ Hl), (bool_decide_eq_true_2 _ Hc').
Qed.

(** C6. The id sequence starts at 0.  For every valid input (non-empty
    title, positive target, deadline after the current time), on every
    ledger whose id counter has not run out (fewer than 2^256 - 1 goals
    created so far), [createGoal]
    returns the counter's value, an id no goal had before, stores under it
    the goal with balance 0, not withdrawn, owned by the caller, with the
    supplied fields, appends the id to the caller's index, raises
    [getTotalGoals] by one, logs [GoalCreated] and touches nothing else.
    For every invalid input it fails with the reason of the first check that
    fails (target, then deadline, then title), allocates no id and leaves
    storage, [getTotalGoals] included, as it was. *)
Theorem createGoal_allocates_next_id
    (sender : address) (now : N) (ttl dsc : string) (tgt dl : N) (s : Ledger) :
  getTotalGoals init = 0 /\
  (0 < tgt -> now < dl -> ttl ≠ EmptyString -> nextGoalId s < MAX_UINT256 ->
   outcome (transact (createGoal sender now ttl dsc tgt dl) s) =
     Ok (nextGoalId s) /\
   goalExists s (nextGoalId s) = false /\
   getGoal (storage (transact (createGoal sender now ttl dsc tgt dl) s))
           (nextGoalId s) = Ok (mkSavingGoal sender ttl dsc tgt dl 0 false) /\
   getGoalsByOwner (storage (transact (createGoal sender now ttl dsc tgt dl) s))
                   sender = getGoalsByOwner s sender ++ [nextGoalId s] /\
   getTotalGoals (storage (transact (createGoal sender now ttl dsc tgt dl) s))
     = getTotalGoals s + 1 /\
   (forall goalId, goalId ≠ nextGoalId s ->
      goal (storage (transact (createGoal sender now ttl dsc tgt dl) s)) goalId
      = goal s goalId) /\
   (forall a, a ≠ sender ->
      getGoalsByOwner
        (storage (transact (createGoal sender now ttl dsc tgt dl) s)) a
      = getGoalsByOwner s a) /\
   logs (transact (createGoal sender now ttl dsc tgt dl) s) =
     [GoalCreated (nextGoalId s) sender tgt dl]) /\
  (tgt = 0 ->
   outcome (transact (createGoal sender now ttl dsc tgt dl) s) =
     Fail (Revert "Target amount must be greater than 0") /\
   storage (transact (createGoal sender now ttl dsc tgt dl) s) = s /\
   logs (transact (createGoal sender now ttl dsc tgt dl) s) = []) /\
  (0 < tgt -> dl ≤ now ->
   outcome (transact (createGoal sender now ttl dsc tgt dl) s) =
     Fail (Revert "Deadline must be in the future") /\
   storage (transact (createGoal sender now ttl dsc tgt dl) s) = s /\
   logs (transact (createGoal sender now ttl dsc tgt dl) s) = []) /\
  (0 < tgt -> now < dl -> ttl = EmptyString ->
   outcome (transact (createGoal sender now ttl dsc tgt dl) s) =
     Fail (Revert "Title cannot be empty") /\
   storage (transact (createGoal sender now ttl dsc tgt dl) s) = s /\
   logs (transact (createGoal sender now ttl dsc tgt dl) s) = []).
Proof.
  split; [done|]. split; [|split; [|split]].
  - intros Ht Hd Hn Hc. unfold transact.
    rewrite createGoal_valid by done. cbn [storage logs outcome].
    unfold getGoal, getGoalsByOwner, getTotalGoals.
    rewrite ownerGoalsOf_created_store, goal_created_store,
      nextGoalId_created_store.
    destruct (decide (nextGoalId s = nextGoalId s)); [|done].
    destruct (decide (sender = sender)); [|done].
    split; [done|]. split; [apply goalExists_false; lia|].
    split. { unfold goalExists. rewrite nextGoalId_created_store.
             rewrite bool_decide_eq_true_2 by lia. done. }
    split; [done|]. split; [done|]. split; [|split; [|done]].
    + intros goalId Hne. rewrite goal_created_store.
      destruct (decide (nextGoalId s = goalId)); congruence.
    + intros a Hne. rewrite ownerGoalsOf_created_store.
      destruct (decide (sender = a)); congruence.
  - intros ->. unfold transact. rewrite createGoal_eq.
    by rewrite (bool_decide_eq_false_2 (0 < 0)) by lia.
  - intros Ht Hd. unfold transact. rewrite createGoal_eq.
    rewrite (bool_decide_eq_true_2 _ Ht).
    by rewrite (bool_decide_eq_false_2 (now < dl)) by lia.
  - intros Ht Hd ->. unfold transact. rewrite createGoal_eq.
    by rewrite (bool_decide_eq_true_2 _ Ht), (bool_decide_eq_true_2 _ Hd).
Qed.

Lemma createGoal_allocates_next_id_witness :
  outcome (transact (createGoal Scenarios.bob 104 "Second" "another" 5 200)
             Scenarios.s4) = Ok 1 /\
  outcome (transact (createGoal Scenarios.bob 104 "Second" "another" 0 200)
             Scenarios.s4) =
    Fail (Revert "Target amount must be greater than 0") /\
  outcome (transact (createGoal Scenarios.bob 104 "Second" "another" 5 104)
             Scenarios.s4) = Fail (Revert "Deadline must be in the future") /\
  outcome (transact (createGoal Scenarios.bob 104 EmptyString "another" 5 200)
             Scenarios.s4) = Fail (Revert "Title cannot be empty").
Proof.
  split; [|split; [|split]].
  - apply (proj1 (proj2 (createGoal_allocates_next_id Scenarios.bob 104
                           "Second" "another" 5 200 Scenarios.s4)));
      by vm_compute.
  - apply (proj1 (proj2 (proj2 (createGoal_allocates_next_id Scenarios.bob 104
                                  "Second" "another" 0 200 Scenarios.s4))));
      by vm_compute.
  - apply (proj1 (proj2 (proj2 (proj2
             (createGoal_allocates_next_id Scenarios.bob 104 "Second"
                "another" 5 104 Scenarios.s4)))));
      by vm_compute.
  - apply (proj2 (proj2 (proj2 (proj2
             (createGoal_allocates_next_id Scenarios.bob 104 EmptyString
                "another" 5 200 Scenarios.s4)))));
      by vm_compute.
Defined.

(** ** deposit *)

Lemma deposit_ok sender value goalId s :
  goalExists s goalId = true -> isWithdrawn (goal s goalId) = false ->
  0 < value -> balance (goal s goalId) + value ≤ MAX_UINT256 ->
  deposit sender value goalId (s, []) =
    ([], Ok (tt, (set_balance goalId (balance (goal s goalId) + value) s,
                  [Deposited goalId sender value
                             (balance (goal s goalId) + value)]))).
Proof.
  intros He Hw Hv Hfit. rewrite deposit_eq, He, Hw.
  rewrite (bool_decide_eq_true_2 _ Hv), (bool_decide_eq_true_2 _ Hfit).
  cbv zeta. rewrite goal_set_balance.
  destruct (decide (goalId = goalId)); done.
Qed.

Lemma sum_over_app f l1 l2 :
  sum_over f (l1 ++ l2) = sum_over f l1 + sum_over f l2.
Proof.
  induction l1 as [|x l1 IH]; [done|]. simpl. rewrite IH. lia.
Qed.

Lemma sum_over_ext f g (l : list N) :
  (forall x, x ∈ l -> f x = g x) -> sum_over f l = sum_over g l.
Proof.
  induction l as [|x l IH]; intros H; [done|]. simpl.
  rewrite (H x) by left. rewrite IH; [done|].
  intros y Hy. apply H. by right.
Qed.

Lemma sum_over_update f g (l : list N) i :
  NoDup l -> i ∈ l -> (forall x, x ≠ i -> g x = f x) ->
  sum_over g l + f i = sum_over f l + g i.
Proof.
  induction l as [|x l IH]; intros Hnd Hin Hsame;
    [by apply elem_of_nil in Hin|].
  apply NoDup_cons in Hnd as [Hx Hnd]. simpl.
  destruct (decide (x = i)) as [->|Hne].
  - rewrite (sum_over_ext g f l); [lia|].
    intros y Hy. apply Hsame. intros ->. done.
  - apply elem_of_cons in Hin as [->|Hin]; [done|].
    rewrite (Hsame x Hne). specialize (IH Hnd Hin Hsame). lia.
Qed.

Lemma sum_over_elem f (l : list N) i : i ∈ l -> f i ≤ sum_over f l.
Proof.
  induction l as [|x l IH]; intros Hin; [by apply elem_of_nil in Hin|].
  simpl. apply elem_of_cons in Hin as [->|Hin]; [lia|].
  specialize (IH Hin). lia.
Qed.

(** No goal holds more than the ledger owes in all. *)
Lemma balance_le_custody s goalId :
  goalExists s goalId = true -> balance (goal s goalId) ≤ custody s.
Proof.
  intros He%goalExists_true. unfold custody.
  apply (sum_over_elem (fun x => balance (goal s x))).
  by apply elem_of_ids.
Qed.

(** A deposit that reaches the contract fits: the contract holds at least
    what the ledger owes, and the amount was credited on top of that. *)
Lemma delivered_deposit_fits s goalId value held :
  goalExists s goalId = true -> custody s ≤ held ->
  held + value ≤ MAX_UINT256 ->
  balance (goal s goalId) + value ≤ MAX_UINT256.
Proof.
  intros He Hback Hdel. pose proof (balance_le_custody s goalId He). lia.
Qed.

(** C8 as stated fails on what [deposit] returns: in the first deposit of
    the test suite (one ether into a fresh goal) the balance becomes one
    ether, and the call returns no data at all; the new balance is only in
    the [Deposited] event. *)
Lemma deposit_returns_nothing :
  goalExists Scenarios.s1 0 = true /\
  isWithdrawn (goal Scenarios.s1 0) = false /\
  0 < Scenarios.ONE_ETH /\
  balance (goal (storage (transact (deposit Scenarios.bob Scenarios.ONE_ETH 0)
                            Scenarios.s1)) 0) = Scenarios.ONE_ETH /\
  returned (transact (deposit Scenarios.bob Scenarios.ONE_ETH 0) Scenarios.s1)
    = Some [] /\
  returned (transact (deposit Scenarios.bob Scenarios.ONE_ETH 0) Scenarios.s1)
    ≠ Some [Scenarios.ONE_ETH] /\
  logs (transact (deposit Scenarios.bob Scenarios.ONE_ETH 0) Scenarios.s1) =
    [Deposited 0 Scenarios.bob Scenarios.ONE_ETH Scenarios.ONE_ETH].
Proof. by vm_compute. Qed.

(** C8 (amended). For every existing goal that is not withdrawn and every
    amount > 0, a [deposit] that reaches the contract (the contract holds
    [held] wei, at least what the ledger owes, and the amount is credited on
    top) raises the goal's balance by exactly the amount, changes nothing
    else, returns no data and reports the new balance in the [Deposited]
    event.  When the goal does not exist, the amount is 0, or the goal is
    withdrawn, it fails with a reason of its own and storage and log stay as
    they were. *)
Theorem deposit_adds_amount
    (sender : address) (value goalId : N) (s : Ledger) (held : N) :
  (goalExists s goalId = true -> isWithdrawn (goal s goalId) = false ->
   0 < value -> custody s ≤ held -> held + value ≤ MAX_UINT256 ->
   outcome (transact (deposit sender value goalId) s) = Ok tt /\
   returned (transact (deposit sender value goalId) s) = Some [] /\
   goal (storage (transact (deposit sender value goalId) s)) goalId =
     with_balance (balance (goal s goalId) + value) (goal s goalId) /\
   balance (goal (storage (transact (deposit sender value goalId) s)) goalId)
     = balance (goal s goalId) + value /\
   logs (transact (deposit sender value goalId) s) =
     [Deposited goalId sender value (balance (goal s goalId) + value)] /\
   (forall goalId', goalId' ≠ goalId ->
      goal (storage (transact (deposit sender value goalId) s)) goalId' =
      goal s goalId') /\
   nextGoalId (storage (transact (deposit sender value goalId) s)) =
     nextGoalId s /\
   ownerGoals (storage (transact (deposit sender value goalId) s)) =
     ownerGoals s) /\
  (goalExists s goalId = false ->
   outcome (transact (deposit sender value goalId) s) =
     Fail (Revert "Goal does not exist") /\
   storage (transact (deposit sender value goalId) s) = s /\
   logs (transact (deposit sender value goalId) s) = []) /\
  (goalExists s goalId = true -> value = 0 ->
   outcome (transact (deposit sender value goalId) s) =
     Fail (Revert "Deposit amount must be greater than 0") /\
   storage (transact (deposit sender value goalId) s) = s /\
   logs (transact (deposit sender value goalId) s) = []) /\
  (goalExists s goalId = true -> 0 < value ->
   isWithdrawn (goal s goalId) = true ->
   outcome (transact (deposit sender value goalId) s) =
     Fail (Revert "Goal has already been withdrawn") /\
   storage (transact (deposit sender value goalId) s) = s /\
   logs (transact (deposit sender value goalId) s) = []).
Proof.
  split; [|split; [|split]].
  - intros He Hw Hv Hback Hdel.
    pose proof (delivered_deposit_fits s goalId value held He Hback Hdel)
      as Hfit.
    unfold returned, transact.
    rewrite deposit_ok by done. cbn [storage logs outcome].
    rewrite goal_set_balance.
    destruct (decide (goalId = goalId)); [|done].
    split; [done|]. split; [done|]. split; [done|]. split; [done|].
    split; [done|]. split; [|done].
    intros goalId' Hne. rewrite goal_set_balance.
    destruct (decide (goalId = goalId')); congruence.
  - intros He. unfold transact. by rewrite deposit_eq, He.
  - intros He ->. unfold transact. rewrite deposit_eq, He.
    by rewrite (bool_decide_eq_false_2 (0 < 0)) by lia.
  - intros He Hv Hw. unfold transact. rewrite deposit_eq, He, Hw.
    by rewrite (bool_decide_eq_true_2 _ Hv).
Qed.

Lemma deposit_adds_amount_witness :
  balance (goal (storage (transact (deposit Scenarios.carol Scenarios.ONE_ETH 0)
                            Scenarios.s2)) 0)
    = balance (goal Scenarios.s2 0) + Scenarios.ONE_ETH /\
  outcome (transact (deposit Scenarios.carol Scenarios.ONE_ETH 9)
             Scenarios.s2) = Fail (Revert "Goal does not exist") /\
  outcome (transact (deposit Scenarios.carol 0 0) Scenarios.s2) =
    Fail (Revert "Deposit amount must be greater than 0") /\
  outcome (transact (deposit Scenarios.carol Scenarios.ONE_ETH 0)
             Scenarios.s4) = Fail (Revert "Goal has already been withdrawn").
Proof.
  split; [|split; [|split]].
  - apply (proj1 (deposit_adds_amount Scenarios.carol Scenarios.ONE_ETH 0
                    Scenarios.s2 Scenarios.ONE_ETH)); by vm_compute.
  - apply (proj1 (proj2 (deposit_adds_amount Scenarios.carol Scenarios.ONE_ETH
                           9 Scenarios.s2 Scenarios.ONE_ETH))); by vm_compute.
  - apply (proj1 (proj2 (proj2 (deposit_adds_amount Scenarios.carol 0 0
                                  Scenarios.s2 Scenarios.ONE_ETH))));
      by vm_compute.
  - apply (proj2 (proj2 (proj2
             (deposit_adds_amount Scenarios.carol Scenarios.ONE_ETH 0
                Scenarios.s4 0)))); by vm_compute.
Defined.

Lemma exec_deposit_ok sender now value goalId s :
  goalExists s goalId = true -> isWithdrawn (goal s goalId) = false ->
  0 < value -> balance (goal s goalId) + value ≤ MAX_UINT256 ->
  exec s now (TxDeposit sender value goalId) =
    set_balance goalId (balance (goal s goalId) + value) s.
Proof.
  intros He Hw Hv Hfit. cbn [exec]. unfold transact.
  by rewrite deposit_ok.
Qed.

Lemma set_balance_twice goalId x y s :
  set_balance goalId y (set_balance goalId x s) = set_balance goalId y s.
Proof.
  unfold set_balance at 1. rewrite goal_set_balance.
  destruct (decide (goalId = goalId)); [|done].
  unfold set_balance, set_goal; simpl. by rewrite insert_insert_eq.
Qed.

(** C9. For every existing goal that is not withdrawn and all positive
    amounts a and b, depositing a then b and depositing b then a (two
    deposits that reach the contract: it holds [held] wei, at least what the
    ledger owes, and both amounts are credited on top) end with the same
    balance, the original balance plus a + b, and with the same storage,
    whoever makes the deposits and whenever. *)
Theorem deposits_commute
    (from1 from2 from3 from4 : address) (t1 t2 t3 t4 : N)
    (a b goalId : N) (s : Ledger) (held : N) :
  goalExists s goalId = true -> isWithdrawn (goal s goalId) = false ->
  0 < a -> 0 < b -> custody s ≤ held -> held + a + b ≤ MAX_UINT256 ->
  balance (goal (exec (exec s t1 (TxDeposit from1 a goalId)) t2
                      (TxDeposit from2 b goalId)) goalId) =
    balance (goal s goalId) + (a + b) /\
  balance (goal (exec (exec s t3 (TxDeposit from3 b goalId)) t4
                      (TxDeposit from4 a goalId)) goalId) =
    balance (goal s goalId) + (a + b) /\
  exec (exec s t1 (TxDeposit from1 a goalId)) t2 (TxDeposit from2 b goalId) =
  exec (exec s t3 (TxDeposit from3 b goalId)) t4 (TxDeposit from4 a goalId).
Proof.
  intros He Hw Ha Hb Hback Hdel.
  assert (balance (goal s goalId) + a + b ≤ MAX_UINT256) as Hfit.
  { pose proof (balance_le_custody s goalId He). lia. }
  assert (forall f1 f2 u1 u2 x y, 0 < x -> 0 < y ->
            balance (goal s goalId) + x + y ≤ MAX_UINT256 ->
            exec (exec s u1 (TxDeposit f1 x goalId)) u2 (TxDeposit f2 y goalId)
            = set_balance goalId (balance (goal s goalId) + x + y) s) as Hseq.
  { intros f1 f2 u1 u2 x y Hx Hy Hxy.
    rewrite (exec_deposit_ok f1 u1 x goalId s) by (done || lia).
    rewrite exec_deposit_ok.
    - rewrite goal_set_balance.
      destruct (decide (goalId = goalId)); [|done]. simpl.
      apply set_balance_twice.
    - done.
    - rewrite goal_set_balance.
      destruct (decide (goalId = goalId)); done.
    - done.
    - rewrite goal_set_balance.
      destruct (decide (goalId = goalId)); [simpl; lia|done]. }
  rewrite (Hseq from1 from2 t1 t2 a b) by done.
  rewrite (Hseq from3 from4 t3 t4 b a) by (done || lia).
  rewrite !goal_set_balance.
  destruct (decide (goalId = goalId)); [|done]. simpl.
  split; [lia|]. split; [lia|]. f_equal. lia.
Qed.

Lemma deposits_commute_witness :
  balance (goal (exec (exec Scenarios.s1 101
                         (TxDeposit Scenarios.bob 4 0)) 102
                      (TxDeposit Scenarios.carol 6 0)) 0) =
    balance (goal Scenarios.s1 0) + (4 + 6) /\
  balance (goal (exec (exec Scenarios.s1 103
                         (TxDeposit Scenarios.alice 6 0)) 104
                      (TxDeposit Scenarios.bob 4 0)) 0) =
    balance (goal Scenarios.s1 0) + (4 + 6) /\
  exec (exec Scenarios.s1 101 (TxDeposit Scenarios.bob 4 0)) 102
       (TxDeposit Scenarios.carol 6 0) =
  exec (exec Scenarios.s1 103 (TxDeposit Scenarios.alice 6 0)) 104
       (TxDeposit Scenarios.bob 4 0).
Proof.
  apply (deposits_commute Scenarios.bob Scenarios.carol Scenarios.alice
           Scenarios.bob 101 102 103 104 4 6 0 Scenarios.s1 0);
    by vm_compute.
Defined.

(** C10. [deposit] never looks at the goal's deadline or target: its
    outcome and the balance it leaves are the same whatever these two fields
    hold, and it takes no time argument.  For every existing goal that is
    not withdrawn and every amount > 0, a deposit that reaches the contract
    (it holds [held] wei, at least what the ledger owes, and the amount is
    credited on top) succeeds, also after the deadline and also when the
    target is already reached; the balance then exceeds the target, and
    nothing but the withdrawal stops its growth. *)
Theorem deposit_ignores_deadline_and_target
    (sender : address) (value goalId : N) (s : Ledger) (tgt dl : N)
    (held : N) :
  outcome (transact (deposit sender value goalId)
             (set_goal goalId (with_terms tgt dl (goal s goalId)) s)) =
    outcome (transact (deposit sender value goalId) s) /\
  balance (goal (storage (transact (deposit sender value goalId)
                  (set_goal goalId (with_terms tgt dl (goal s goalId)) s)))
                goalId) =
    balance (goal (storage (transact (deposit sender value goalId) s))
                  goalId) /\
  (goalExists s goalId = true -> isWithdrawn (goal s goalId) = false ->
   0 < value -> custody s ≤ held -> held + value ≤ MAX_UINT256 ->
   outcome (transact (deposit sender value goalId) s) = Ok tt /\
   balance (goal (storage (transact (deposit sender value goalId) s)) goalId)
     = balance (goal s goalId) + value /\
   isWithdrawn (goal (storage (transact (deposit sender value goalId) s))
                     goalId) = false /\
   (targetAmount (goal s goalId) ≤ balance (goal s goalId) ->
    targetAmount (goal (storage (transact (deposit sender value goalId) s))
                       goalId)
    < balance (goal (storage (transact (deposit sender value goalId) s))
                    goalId))).
Proof.
  assert (goal (set_goal goalId (with_terms tgt dl (goal s goalId)) s) goalId
          = with_terms tgt dl (goal s goalId)) as Hg.
  { rewrite goal_set_goal. destruct (decide (goalId = goalId)); done. }
  split; [|split].
  - unfold transact. rewrite !deposit_eq, Hg.
    change (goalExists (set_goal goalId _ s) goalId)
      with (goalExists s goalId).
    destruct (goalExists s goalId); [|done].
    case_bool_decide; [|done]. simpl.
    destruct (isWithdrawn (goal s goalId)); [done|].
    case_bool_decide; done.
  - unfold transact. rewrite !deposit_eq, Hg.
    change (goalExists (set_goal goalId _ s) goalId)
      with (goalExists s goalId).
    destruct (goalExists s goalId); cbn [storage]; [|by rewrite Hg].
    case_bool_decide; cbn [storage]; [|by rewrite Hg]. simpl.
    destruct (isWithdrawn (goal s goalId)); cbn [storage]; [by rewrite Hg|].
    case_bool_decide; cbn [storage]; [|by rewrite Hg].
    rewrite !goal_set_balance.
    destruct (decide (goalId = goalId)); done.
  - intros He Hw Hv Hback Hdel.
    pose proof (delivered_deposit_fits s goalId value held He Hback Hdel)
      as Hfit.
    unfold transact.
    rewrite deposit_ok by done. cbn [storage outcome].
    rewrite goal_set_balance. destruct (decide (goalId = goalId)); [|done].
    simpl. split; [done|]. split; [done|]. split; [done|]. lia.
Qed.

Lemma deposit_ignores_deadline_and_target_witness :
  outcome (transact (deposit Scenarios.bob 7 0) Scenarios.s3) = Ok tt /\
  balance (goal (storage (transact (deposit Scenarios.bob 7 0) Scenarios.s3))
                0) = balance (goal Scenarios.s3 0) + 7.
Proof.
  destruct (proj2 (proj2 (deposit_ignores_deadline_and_target Scenarios.bob 7
                            0 Scenarios.s3 0 0 Scenarios.TWO_ETH)))
    as (H1 & H2 & _); [by vm_compute..|].
  split; [exact H1|exact H2].
Defined.

(** ** Relating the world before and after a call

    A relation between worlds that holds across the three storage-and-log
    updates of the contract holds across every call, nested calls of
    recipient code included.  For [withdraw] the update is taken as a whole:
    finalization, whatever the transfer does, then the [Withdrawn] event. *)

Section Steps.

Variable R : World -> World -> Prop.

Hypothesis R_refl : forall w, R w w.

Hypothesis R_trans : forall w1 w2 w3, R w1 w2 -> R w2 w3 -> R w1 w3.

Hypothesis R_created : forall s evs sender now ttl dsc tgt dl,
  0 < tgt -> now < dl -> ttl ≠ EmptyString ->
  nextGoalId s + 1 ≤ MAX_UINT256 ->
  R (s, evs) (created_store sender ttl dsc tgt dl s,
              evs ++ [GoalCreated (nextGoalId s) sender tgt dl]).

Hypothesis R_deposited : forall s evs sender value goalId,
  goalExists s goalId = true -> 0 < value ->
  isWithdrawn (goal s goalId) = false ->
  balance (goal s goalId) + value ≤ MAX_UINT256 ->
  R (s, evs)
    (set_balance goalId (balance (goal s goalId) + value) s,
     evs ++ [Deposited goalId sender value (balance (goal s goalId) + value)]).

Hypothesis R_withdrawn : forall s evs s2 evs2 sender now goalId,
  withdraw_precheck s sender now goalId = None ->
  R (finalized goalId s, evs) (s2, evs2) ->
  R (s, evs) (s2, evs2 ++ [Withdrawn goalId sender (balance (goal s goalId))]).

Lemma createGoal_related sender now ttl dsc tgt dl (w : World) n w' :
  (createGoal sender now ttl dsc tgt dl w).2 = Ok (n, w') -> R w w'.
Proof.
  destruct w as [s evs]. rewrite createGoal_eq. cbn [snd]. intros H.
  repeat case_bool_decide; try discriminate.
  inversion H; subst. apply (R_created _ _ _ now); try done.
  intros ->. simpl in *. lia.
Qed.

Lemma deposit_related sender value goalId (w : World) u w' :
  (deposit sender value goalId w).2 = Ok (u, w') -> R w w'.
Proof.
  destruct w as [s evs]. rewrite deposit_eq. cbn [snd]. intros H.
  destruct (goalExists s goalId) eqn:He; [|discriminate].
  case_bool_decide; [|discriminate].
  destruct (isWithdrawn (goal s goalId)) eqn:Hw; [discriminate|].
  case_bool_decide; [|discriminate].
  cbv zeta in H. inversion H; subst.
  rewrite goal_set_balance. destruct (decide (goalId = goalId)); [|done].
  simpl. by apply R_deposited.
Qed.

Lemma withdraw_related rcp sender now goalId (w : World) u w' :
  (forall w1 w2, (rcp w1).2 = Some w2 -> R w1 w2) ->
  (withdraw rcp sender now goalId w).2 = Ok (u, w') -> R w w'.
Proof.
  destruct w as [s evs]. rewrite withdraw_eq. intros Hrcp H.
  destruct (withdraw_precheck s sender now goalId) eqn:Hpre;
    [discriminate|].
  cbv zeta in H.
  destruct (rcp (finalized goalId s, evs)) as [t [[s2 evs2]|]] eqn:Hr;
    [|discriminate].
  cbn [snd] in H. inversion H; subst.
  eapply R_withdrawn; [exact Hpre|].
  apply Hrcp. by rewrite Hr.
Qed.

Lemma attempt_related {A} (m : Exec A) (w : World) :
  (forall a w', (m w).2 = Ok (a, w') -> R w w') -> R w (attempt m w).2.
Proof.
  intros Hm. unfold attempt.
  destruct (m w) as [t [[a w']|f]] eqn:E; cbn [snd]; [|apply R_refl].
  by apply (Hm a).
Qed.

Lemma run_related r now : forall w w',
  (run r now w).2 = Some w' -> R w w'.
Proof.
  induction r as [| |sender value goalId k IHk
                 |sender goalId inner IHinner k IHk
                 |sender ttl dsc tgt dl k IHk]; intros w w' H; simpl in H.
  - inversion H; subst. apply R_refl.
  - discriminate.
  - pose proof (attempt_related (deposit sender value goalId) w
      (fun a w' => deposit_related sender value goalId w a w')) as HR.
    destruct (attempt _ w) as [[t ok] w1].
    destruct (run (k ok) now w1) as [t' o] eqn:Hk. cbn [snd] in *. subst o.
    apply (R_trans _ w1); [exact HR|]. apply (IHk ok). by rewrite Hk.
  - pose proof (attempt_related
      (withdraw (run inner now) sender now goalId) w
      (fun a w' =>
         withdraw_related (run inner now) sender now goalId w a w' IHinner))
      as HR.
    destruct (attempt _ w) as [[t ok] w1].
    destruct (run (k ok) now w1) as [t' o] eqn:Hk. cbn [snd] in *. subst o.
    apply (R_trans _ w1); [exact HR|]. apply (IHk ok). by rewrite Hk.
  - pose proof (attempt_related
      (createGoal sender now ttl dsc tgt dl) w
      (fun a w' => createGoal_related sender now ttl dsc tgt dl w a w'))
      as HR.
    destruct (attempt _ w) as [[t ok] w1].
    destruct (run (k ok) now w1) as [t' o] eqn:Hk. cbn [snd] in *. subst o.
    apply (R_trans _ w1); [exact HR|]. apply (IHk ok). by rewrite Hk.
Qed.

Lemma transact_related {A} (m : Exec A) s :
  (forall a w', (m (s, [])).2 = Ok (a, w') -> R (s, []) w') ->
  R (s, []) (storage (transact m s), logs (transact m s)).
Proof.
  intros Hm. unfold transact.
  destruct (m (s, [])) as [t [[a [s' evs]]|f]] eqn:E; cbn [storage logs];
    [|apply R_refl].
  by apply (Hm a).
Qed.

Lemma step_related s now tx : R (s, []) (exec s now tx, tx_logs s now tx).
Proof.
  destruct tx as [sender ttl dsc tgt dl|sender value goalId
                 |sender goalId r]; cbn [exec tx_logs];
    apply transact_related; intros a w'.
  - apply createGoal_related.
  - apply deposit_related.
  - apply withdraw_related. apply run_related.
Qed.

End Steps.

(** The same for a relation between storages alone. *)
Lemma reaches_related (Q : Ledger -> Ledger -> Prop) :
  (forall s, Q s s) ->
  (forall s1 s2 s3, Q s1 s2 -> Q s2 s3 -> Q s1 s3) ->
  (forall s sender now ttl dsc tgt dl,
     0 < tgt -> now < dl -> ttl ≠ EmptyString ->
     nextGoalId s + 1 ≤ MAX_UINT256 ->
     Q s (created_store sender ttl dsc tgt dl s)) ->
  (forall s value goalId,
     goalExists s goalId = true -> 0 < value ->
     isWithdrawn (goal s goalId) = false ->
     balance (goal s goalId) + value ≤ MAX_UINT256 ->
     Q s (set_balance goalId (balance (goal s goalId) + value) s)) ->
  (forall s s2 sender now goalId,
     withdraw_precheck s sender now goalId = None ->
     Q (finalized goalId s) s2 -> Q s s2) ->
  forall s s', reaches s s' -> Q s s'.
Proof.
  intros Hrefl Htrans Hc Hd Hw s s' Hr.
  induction Hr as [|s' now tx Hr IH]; [apply Hrefl|].
  apply (Htrans _ s'); [exact IH|].
  apply (step_related (fun w w' => Q w.1 w'.1)); cbn [fst]; eauto.
Qed.

(** And for a predicate on storage. *)
Lemma reaches_invariant (P : Ledger -> Prop) :
  (forall s sender now ttl dsc tgt dl,
     P s -> 0 < tgt -> now < dl -> ttl ≠ EmptyString ->
     nextGoalId s + 1 ≤ MAX_UINT256 ->
     P (created_store sender ttl dsc tgt dl s)) ->
  (forall s value goalId,
     P s -> goalExists s goalId = true -> 0 < value ->
     isWithdrawn (goal s goalId) = false ->
     balance (goal s goalId) + value ≤ MAX_UINT256 ->
     P (set_balance goalId (balance (goal s goalId) + value) s)) ->
  (forall s sender now goalId,
     P s -> withdraw_precheck s sender now goalId = None ->
     P (finalized goalId s)) ->
  forall s s', P s -> reaches s s' -> P s'.
Proof.
  intros Hc Hd Hw s s' HP Hr. revert HP.
  apply (reaches_related (fun s s' => P s -> P s')); eauto.
Qed.

(** ** What reachable storage looks like *)

Lemma unallocated_empty_created s sender ttl dsc tgt dl :
  unallocated_empty s ->
  unallocated_empty (created_store sender ttl dsc tgt dl s).
Proof.
  intros IH goalId Hge. rewrite nextGoalId_created_store in Hge.
  unfold created_store, push_ownerGoal, set_goal; simpl.
  rewrite lookup_insert_ne by lia. apply IH. lia.
Qed.

Lemma unallocated_empty_set_goal s goalId g :
  goalId < nextGoalId s -> unallocated_empty s ->
  unallocated_empty (set_goal goalId g s).
Proof.
  intros Hlt IH goalId' Hge. unfold set_goal in *; simpl in *.
  rewrite lookup_insert_ne by lia. by apply IH.
Qed.

Lemma unallocated_empty_finalized s goalId :
  goalExists s goalId = true -> unallocated_empty s ->
  unallocated_empty (finalized goalId s).
Proof.
  intros He%goalExists_true IH. unfold finalized, set_balance.
  apply unallocated_empty_set_goal; [done|].
  unfold set_isWithdrawn. by apply unallocated_empty_set_goal.
Qed.

Lemma unallocated_empty_reachable s : reachable s -> unallocated_empty s.
Proof.
  intros Hr. apply (reaches_invariant unallocated_empty) with (s := init);
    [| | |done|exact Hr].
  - intros s0 sender now ttl dsc tgt dl IH _ _ _ _.
    by apply unallocated_empty_created.
  - intros s0 value goalId IH He%goalExists_true _ _ _.
    unfold set_balance. by apply unallocated_empty_set_goal.
  - intros s0 sender now goalId IH (He & _)%withdraw_precheck_None.
    by apply unallocated_empty_finalized.
Qed.

Lemma unallocated_goal s goalId :
  unallocated_empty s -> ¬ goalId < nextGoalId s -> goal s goalId = zeroGoal.
Proof. intros Hu Hge. unfold goal. by rewrite (Hu goalId Hge). Qed.

Lemma goals_valid_reachable s : reachable s -> goals_valid s.
Proof.
  intros Hr. apply (reaches_invariant goals_valid) with (s := init);
    [| | | |exact Hr]; unfold goals_valid.
  - intros s0 sender now ttl dsc tgt dl IH Ht _ Hn _ goalId Hlt.
    rewrite nextGoalId_created_store in Hlt.
    unfold created_store, push_ownerGoal, set_goal; simpl.
    rewrite lookup_insert.
    destruct (decide (nextGoalId s0 = goalId)) as [<-|Hne]; [eauto|].
    apply IH. lia.
  - intros s0 value goalId IH He _ _ _ goalId' Hlt.
    destruct (IH goalId' Hlt) as (g & Hg & Ht & Hn).
    unfold set_balance, set_goal; simpl. rewrite lookup_insert.
    destruct (decide (goalId = goalId')) as [->|]; [|eauto].
    unfold goal. rewrite Hg. simpl. eauto.
  - intros s0 sender now goalId IH _ goalId' Hlt.
    destruct (IH goalId' Hlt) as (g & Hg & Ht & Hn).
    unfold finalized, set_balance, set_isWithdrawn, set_goal; simpl.
    rewrite lookup_insert.
    destruct (decide (goalId = goalId')) as [->|Hne].
    + unfold goal at 1; simpl. rewrite lookup_insert_eq. simpl.
      unfold goal. rewrite Hg. simpl. eauto.
    + rewrite lookup_insert_ne by done. eauto.
  - intros goalId Hlt. simpl in Hlt. lia.
Qed.

(** X1. In every reachable state, [getGoal] succeeds exactly on the ids
    below [getTotalGoals], and what it returns is a goal that passed the
    checks of [createGoal]: positive target, non-empty title; above the
    counter the storage slot was never written. *)
Theorem getGoal_returns_valid_goal (s : Ledger) (goalId : N) :
  reachable s ->
  (goalId < getTotalGoals s ->
   exists g, getGoal s goalId = Ok g /\ goals s !! goalId = Some g /\
             0 < targetAmount g /\ title g ≠ EmptyString) /\
  (¬ goalId < getTotalGoals s ->
   getGoal s goalId = Fail (Revert "Goal does not exist") /\
   goals s !! goalId = None).
Proof.
  intros Hr. unfold getGoal, getTotalGoals, goalExists. split.
  - intros Hlt. rewrite (bool_decide_eq_true_2 _ Hlt).
    destruct (goals_valid_reachable s Hr goalId Hlt) as (g & Hg & Ht & Hn).
    exists g. unfold goal. rewrite Hg. done.
  - intros Hge. rewrite (bool_decide_eq_false_2 _ Hge).
    split; [done|]. by apply unallocated_empty_reachable.
Qed.

Lemma getGoal_returns_valid_goal_witness :
  (exists g, getGoal Scenarios.s4 0 = Ok g /\
             goals Scenarios.s4 !! 0 = Some g /\
             0 < targetAmount g /\ title g ≠ EmptyString) /\
  getGoal Scenarios.s4 5 = Fail (Revert "Goal does not exist").
Proof.
  split.
  - apply (proj1 (getGoal_returns_valid_goal Scenarios.s4 0
                    scenario_reachable)). by vm_compute.
  - apply (proj2 (getGoal_returns_valid_goal Scenarios.s4 5
                    scenario_reachable)). by vm_compute.
Defined.

(** X2. No stored number ever leaves the [uint256] range: in every
    reachable state the id counter and every goal's balance are at most
    [MAX_UINT256], whatever amounts the callers send. *)
Theorem stored_numbers_stay_in_range (s : Ledger) :
  reachable s ->
  getTotalGoals s ≤ MAX_UINT256 /\
  forall goalId, balance (goal s goalId) ≤ MAX_UINT256.
Proof.
  intros Hr. change (in_range s).
  apply (reaches_invariant (fun s => unallocated_empty s /\ in_range s))
    with (s := init); [| | | |exact Hr]; unfold in_range.
  - intros s0 sender now ttl dsc tgt dl (Hu & Hn & Hb) _ _ _ Hfit.
    split; [by apply unallocated_empty_created|].
    rewrite nextGoalId_created_store. split; [done|].
    intros goalId. rewrite goal_created_store.
    destruct (decide (nextGoalId s0 = goalId)); [apply N.le_0_l|apply Hb].
  - intros s0 value goalId (Hu & Hn & Hb) He%goalExists_true _ _ Hfit.
    split; [unfold set_balance; by apply unallocated_empty_set_goal|].
    split; [done|]. intros goalId'. rewrite goal_set_balance.
    destruct (decide (goalId = goalId')); [done|apply Hb].
  - intros s0 sender now goalId (Hu & Hn & Hb)
      (He & _)%withdraw_precheck_None.
    split; [by apply unallocated_empty_finalized|].
    split; [done|]. intros goalId'. rewrite goal_finalized.
    destruct (decide (goalId = goalId')); [apply N.le_0_l|apply Hb].
  - split; [done|]. split; [apply N.le_0_l|]. intros goalId. apply N.le_0_l.
Qed.

Lemma stored_numbers_stay_in_range_witness :
  getTotalGoals Overflow.brim ≤ MAX_UINT256 /\
  forall goalId, balance (goal Overflow.brim goalId) ≤ MAX_UINT256.
Proof.
  apply (stored_numbers_stay_in_range Overflow.brim).
  unfold reachable, Overflow.brim, Scenarios.s1.
  repeat apply reaches_step. apply reaches_refl.
Defined.

(** ** What later transactions cannot change *)

Lemma same_terms_refl g : same_terms g g.
Proof. by repeat split. Qed.

Lemma same_terms_trans g1 g2 g3 :
  same_terms g1 g2 -> same_terms g2 g3 -> same_terms g1 g3.
Proof.
  intros (?&?&?&?&?) (?&?&?&?&?). repeat split; congruence.
Qed.

Lemma terms_stable s s' :
  reaches s s' ->
  nextGoalId s ≤ nextGoalId s' /\
  forall goalId, goalId < nextGoalId s ->
                 same_terms (goal s goalId) (goal s' goalId).
Proof.
  apply (reaches_related
           (fun s s' => nextGoalId s ≤ nextGoalId s' /\
              forall goalId, goalId < nextGoalId s ->
                             same_terms (goal s goalId) (goal s' goalId))).
  - intros s0. split; [done|]. intros. apply same_terms_refl.
  - intros s1 s2 s3 [Hn1 H1] [Hn2 H2]. split; [lia|].
    intros goalId Hlt. apply (same_terms_trans _ (goal s2 goalId)); [auto|].
    apply H2. lia.
  - intros s0 sender now ttl dsc tgt dl _ _ _ _.
    rewrite nextGoalId_created_store. split; [lia|].
    intros goalId Hlt. rewrite goal_created_store.
    destruct (decide (nextGoalId s0 = goalId)); [lia|apply same_terms_refl].
  - intros s0 value goalId _ _ _ _. split; [done|].
    intros goalId' _. rewrite goal_set_balance.
    destruct (decide (goalId = goalId')) as [->|]; by repeat split.
  - intros s0 s2 sender now goalId _ [Hn H]. split; [done|].
    intros goalId' Hlt.
    apply (same_terms_trans _ (goal (finalized goalId s0) goalId'));
      [|by apply H].
    rewrite goal_finalized.
    destruct (decide (goalId = goalId')) as [->|]; by repeat split.
Qed.

(** X3. Goal ids and goal terms are permanent: whatever transactions
    follow, [getTotalGoals] never decreases, and a goal that exists keeps
    existing with the same owner, title, description, target and deadline. *)
Theorem goal_terms_never_change (s s' : Ledger) (goalId : N) :
  reaches s s' -> goalExists s goalId = true ->
  getTotalGoals s ≤ getTotalGoals s' /\
  goalExists s' goalId = true /\
  owner (goal s' goalId) = owner (goal s goalId) /\
  title (goal s' goalId) = title (goal s goalId) /\
  description (goal s' goalId) = description (goal s goalId) /\
  targetAmount (goal s' goalId) = targetAmount (goal s goalId) /\
  deadline (goal s' goalId) = deadline (goal s goalId).
Proof.
  intros Hr He%goalExists_true.
  destruct (terms_stable s s' Hr) as [Hn Ht].
  split; [done|]. split; [apply goalExists_true; lia|].
  apply (Ht goalId He).
Qed.

Lemma goal_terms_never_change_witness :
  getTotalGoals Scenarios.s1 ≤ getTotalGoals Scenarios.s4 /\
  goalExists Scenarios.s4 0 = true /\
  owner (goal Scenarios.s4 0) = owner (goal Scenarios.s1 0) /\
  title (goal Scenarios.s4 0) = title (goal Scenarios.s1 0) /\
  description (goal Scenarios.s4 0) = description (goal Scenarios.s1 0) /\
  targetAmount (goal Scenarios.s4 0) = targetAmount (goal Scenarios.s1 0) /\
  deadline (goal Scenarios.s4 0) = deadline (goal Scenarios.s1 0).
Proof.
  apply (goal_terms_never_change Scenarios.s1 Scenarios.s4 0).
  - unfold Scenarios.s4, Scenarios.s3, Scenarios.s2.
    do 3 apply reaches_step. apply reaches_refl.
  - vm_compute. reflexivity.
Defined.

Lemma balance_grows s s' :
  reaches s s' -> unallocated_empty s ->
  unallocated_empty s' /\
  forall goalId, isWithdrawn (goal s' goalId) = false ->
    isWithdrawn (goal s goalId) = false /\
    balance (goal s goalId) ≤ balance (goal s' goalId).
Proof.
  apply (reaches_related
           (fun s s' => unallocated_empty s ->
              unallocated_empty s' /\
              forall goalId, isWithdrawn (goal s' goalId) = false ->
                isWithdrawn (goal s goalId) = false /\
                balance (goal s goalId) ≤ balance (goal s' goalId))).
  - intros s0 Hu. split; [done|]. intros goalId Hw. split; [done|lia].
  - intros s1 s2 s3 H1 H2 Hu1.
    destruct (H1 Hu1) as [Hu2 H12]. destruct (H2 Hu2) as [Hu3 H23].
    split; [done|]. intros goalId Hw3.
    destruct (H23 goalId Hw3) as [Hw2 Hb23].
    destruct (H12 goalId Hw2) as [Hw1 Hb12]. split; [done|lia].
  - intros s0 sender now ttl dsc tgt dl _ _ _ _ Hu.
    split; [by apply unallocated_empty_created|].
    intros goalId. rewrite goal_created_store.
    destruct (decide (nextGoalId s0 = goalId)) as [<-|]; [|split; [done|lia]].
    intros _. rewrite (unallocated_goal s0 (nextGoalId s0) Hu) by lia.
    split; [done|simpl; lia].
  - intros s0 value goalId He%goalExists_true _ Hw _ Hu.
    split; [unfold set_balance; by apply unallocated_empty_set_goal|].
    intros goalId'. rewrite goal_set_balance.
    destruct (decide (goalId = goalId')) as [->|]; [|split; [done|lia]].
    simpl. intros _. split; [done|lia].
  - intros s0 s2 sender now goalId Hpre H Hu.
    pose proof Hpre as (He & _)%withdraw_precheck_None.
    destruct (H (unallocated_empty_finalized s0 goalId He Hu)) as [Hu2 H2].
    split; [done|]. intros goalId' Hw2.
    destruct (H2 goalId' Hw2) as [Hw1 Hb]. rewrite goal_finalized in Hw1, Hb.
    destruct (decide (goalId = goalId')) as [->|]; [discriminate|done].
Qed.

(** X4. Until it is withdrawn, a goal's balance never goes down: from any
    reachable state, whatever transactions follow, a goal that is still not
    withdrawn afterwards holds at least what it held before. *)
Theorem balance_never_decreases_before_withdrawal
    (s s' : Ledger) (goalId : N) :
  reachable s -> reaches s s' -> isWithdrawn (goal s' goalId) = false ->
  isWithdrawn (goal s goalId) = false /\
  balance (goal s goalId) ≤ balance (goal s' goalId).
Proof.
  intros Hr Hs Hw.
  apply (balance_grows s s' Hs (unallocated_empty_reachable s Hr)). exact Hw.
Qed.

Lemma scenario_s1_reachable : reachable Scenarios.s1.
Proof.
  unfold reachable, Scenarios.s1. apply reaches_step, reaches_refl.
Qed.

Lemma balance_never_decreases_before_withdrawal_witness :
  isWithdrawn (goal Scenarios.s1 0) = false /\
  balance (goal Scenarios.s1 0) ≤ balance (goal Scenarios.s3 0).
Proof.
  apply (balance_never_decreases_before_withdrawal Scenarios.s1 Scenarios.s3
           0 scenario_s1_reachable).
  - unfold Scenarios.s3, Scenarios.s2.
    do 2 apply reaches_step. apply reaches_refl.
  - vm_compute. reflexivity.
Defined.

(** ** The event log accounts for every balance *)

Lemma deposited_for_app goalId evs evs' :
  deposited_for goalId (evs ++ evs') =
  deposited_for goalId evs + deposited_for goalId evs'.
Proof.
  induction evs as [|e evs IH]; [done|].
  destruct e; simpl; rewrite IH; lia.
Qed.

Lemma withdrawn_for_app goalId evs evs' :
  withdrawn_for goalId (evs ++ evs') =
  withdrawn_for goalId evs + withdrawn_for goalId evs'.
Proof.
  induction evs as [|e evs IH]; [done|].
  destruct e; simpl; rewrite IH; lia.
Qed.

Lemma payouts_app goalId evs evs' :
  payouts goalId (evs ++ evs') = payouts goalId evs + payouts goalId evs'.
Proof.
  induction evs as [|e evs IH]; [done|].
  destruct e; simpl; rewrite IH; lia.
Qed.

Lemma created_ids_app evs evs' :
  created_ids (evs ++ evs') = created_ids evs ++ created_ids evs'.
Proof.
  induction evs as [|e evs IH]; [done|].
  destruct e; simpl; by rewrite IH.
Qed.

Lemma step_accounts_agree s now tx :
  accounts_agree (s, []) (exec s now tx, tx_logs s now tx).
Proof.
  apply (step_related accounts_agree); unfold accounts_agree; cbn [fst snd].
  - intros w Hu. split; [done|]. intros goalId. split; lia.
  - intros w1 w2 w3 H1 H2 Hu1.
    destruct (H1 Hu1) as [Hu2 H12]. destruct (H2 Hu2) as [Hu3 H23].
    split; [done|]. intros goalId.
    destruct (H12 goalId) as [Ha Hb]. destruct (H23 goalId) as [Hc Hd].
    split; lia.
  - intros s0 evs sender now0 ttl dsc tgt dl _ _ _ _ Hu.
    split; [by apply unallocated_empty_created|].
    intros goalId.
    rewrite goal_created_store, deposited_for_app, withdrawn_for_app,
      payouts_app.
    simpl.
    destruct (decide (nextGoalId s0 = goalId)) as [<-|].
    + rewrite (unallocated_goal s0 (nextGoalId s0) Hu) by lia.
      simpl. split; lia.
    + split; lia.
  - intros s0 evs sender value goalId He%goalExists_true _ Hw _ Hu.
    split; [unfold set_balance; by apply unallocated_empty_set_goal|].
    intros goalId'.
    rewrite goal_set_balance, deposited_for_app, withdrawn_for_app,
      payouts_app.
    simpl.
    destruct (decide (goalId = goalId')) as [->|]; simpl; split; lia.
  - intros s0 evs s2 evs2 sender now0 goalId Hpre H Hu.
    pose proof Hpre as (He & _ & Hw & _)%withdraw_precheck_None.
    destruct (H (unallocated_empty_finalized s0 goalId He Hu)) as [Hu2 H2].
    split; [done|]. intros goalId'.
    destruct (H2 goalId') as [Ha Hb].
    rewrite goal_finalized in Ha, Hb.
    rewrite deposited_for_app, withdrawn_for_app, payouts_app. simpl.
    destruct (decide (goalId = goalId')) as [Heq|]; simpl in *.
    + subst goalId'. rewrite Hw. simpl. split; lia.
    + split; lia.
Qed.

Lemma history_reachable s h : ledger_history s h -> reachable s.
Proof.
  induction 1 as [|s h now tx _ IH]; [apply reaches_refl|].
  by apply reaches_step.
Qed.

Lemma reachable_history s : reachable s -> exists h, ledger_history s h.
Proof.
  induction 1 as [|s' now tx _ [h IH]].
  - exists []. constructor.
  - exists (h ++ tx_logs s' now tx). by constructor.
Qed.

Lemma history_accounts s h :
  ledger_history s h ->
  forall goalId,
    balance (goal s goalId) + withdrawn_for goalId h = deposited_for goalId h /\
    payouts goalId h = flag (isWithdrawn (goal s goalId)).
Proof.
  induction 1 as [|s h now tx Hh IH]; intros goalId; [done|].
  destruct (step_accounts_agree s now tx
              (unallocated_empty_reachable s (history_reachable s h Hh)))
    as [_ Hstep].
  destruct (Hstep goalId) as [Ha Hb]. destruct (IH goalId) as [Hc Hd].
  cbn [fst snd] in *. simpl in Ha, Hb.
  rewrite deposited_for_app, withdrawn_for_app, payouts_app. split; lia.
Qed.

(** X5. The log accounts for every wei of every goal: over the whole
    history of a ledger, the amounts of a goal's [Deposited] events add up to
    the goal's current balance plus the amounts of its [Withdrawn] events,
    reentrant calls included. *)
Theorem deposits_equal_balance_plus_withdrawals
    (s : Ledger) (h : list Event) (goalId : N) :
  ledger_history s h ->
  deposited_for goalId h = balance (goal s goalId) + withdrawn_for goalId h.
Proof.
  intros Hh. by destruct (history_accounts s h Hh goalId) as [<- _].
Qed.

(** X6. A goal is paid out at most once, and in full: over the whole
    history of a ledger, the number of [Withdrawn] events of a goal is 1 if
    the goal is withdrawn and 0 otherwise, and when it is withdrawn the
    amount paid out is the total of its deposits. *)
Theorem one_payout_per_goal (s : Ledger) (h : list Event) (goalId : N) :
  ledger_history s h ->
  payouts goalId h = (if isWithdrawn (goal s goalId) then 1 else 0) /\
  payouts goalId h ≤ 1 /\
  (isWithdrawn (goal s goalId) = true ->
   withdrawn_for goalId h = deposited_for goalId h).
Proof.
  intros Hh. destruct (history_accounts s h Hh goalId) as [Ha Hb].
  split; [exact Hb|]. split.
  - rewrite Hb. destruct (isWithdrawn _); simpl; lia.
  - intros Hw.
    pose proof (withdrawn_empty_reachable s (history_reachable s h Hh)
                  goalId Hw). lia.
Qed.

Lemma scenario_history_ok : ledger_history Scenarios.s4 scenario_history.
Proof.
  apply (history_step Scenarios.s3 _ 103 (TxWithdraw Scenarios.alice 0 Accept)).
  apply (history_step Scenarios.s2 _ 102
           (TxDeposit Scenarios.carol Scenarios.ONE_ETH 0)).
  apply (history_step Scenarios.s1 _ 101
           (TxDeposit Scenarios.bob Scenarios.ONE_ETH 0)).
  apply (history_step init [] 100).
  apply history_init.
Qed.

Lemma deposits_equal_balance_plus_withdrawals_witness :
  deposited_for 0 scenario_history =
  balance (goal Scenarios.s4 0) + withdrawn_for 0 scenario_history.
Proof.
  apply (deposits_equal_balance_plus_withdrawals Scenarios.s4
           scenario_history 0 scenario_history_ok).
Defined.

Lemma one_payout_per_goal_witness :
  payouts 0 scenario_history =
    (if isWithdrawn (goal Scenarios.s4 0) then 1 else 0) /\
  payouts 0 scenario_history ≤ 1 /\
  (isWithdrawn (goal Scenarios.s4 0) = true ->
   withdrawn_for 0 scenario_history = deposited_for 0 scenario_history).
Proof.
  apply (one_payout_per_goal Scenarios.s4 scenario_history 0
           scenario_history_ok).
Defined.

Lemma step_announces s now tx :
  announces_allocations (s, []) (exec s now tx, tx_logs s now tx).
Proof.
  apply (step_related announces_allocations); unfold announces_allocations;
    cbn [fst snd].
  - intros w. exists []. by rewrite !app_nil_r.
  - intros w1 w2 w3 (l1 & Ha1 & Hb1) (l2 & Ha2 & Hb2).
    exists (l1 ++ l2). rewrite Ha2, Ha1, Hb2, Hb1. by rewrite !app_assoc.
  - intros s0 evs sender now0 ttl dsc tgt dl _ _ _ _.
    exists [nextGoalId s0].
    by rewrite created_ids_app, nextGoalId_created_store, ids_succ.
  - intros s0 evs sender value goalId _ _ _ _. exists [].
    rewrite created_ids_app. simpl. by rewrite !app_nil_r.
  - intros s0 evs s2 evs2 sender now0 goalId _ (l & Ha & Hb).
    exists l. rewrite created_ids_app. simpl. rewrite app_nil_r.
    by rewrite nextGoalId_finalized in Hb.
Qed.

(** X7. The [GoalCreated] events of a ledger's history announce the ids
    0, 1, 2, ... in order, one for each id allocated: there are exactly
    [getTotalGoals] of them and none is skipped or repeated. *)
Theorem created_events_enumerate_ids (s : Ledger) (h : list Event) :
  ledger_history s h ->
  created_ids h = ids (getTotalGoals s) /\
  N.of_nat (length (created_ids h)) = getTotalGoals s /\
  NoDup (created_ids h).
Proof.
  intros Hh.
  assert (created_ids h = ids (nextGoalId s)) as Heq.
  { induction Hh as [|s h now tx Hh IH]; [done|].
    destruct (step_announces s now tx) as (l & Ha & Hb). cbn [fst snd] in *.
    simpl in Ha. by rewrite created_ids_app, Ha, Hb, IH. }
  unfold getTotalGoals. rewrite Heq. split; [done|]. split.
  - unfold ids. rewrite length_fmap, length_seq. lia.
  - apply NoDup_ids.
Qed.

Lemma created_events_enumerate_ids_witness :
  created_ids scenario_history = ids (getTotalGoals Scenarios.s4) /\
  N.of_nat (length (created_ids scenario_history)) =
    getTotalGoals Scenarios.s4 /\
  NoDup (created_ids scenario_history).
Proof.
  apply (created_events_enumerate_ids Scenarios.s4 scenario_history
           scenario_history_ok).
Defined.

(** ** After the withdrawal, and before it *)

Lemma canWithdraw_true s now goalId :
  canWithdraw s now goalId = true <->
  goalId < nextGoalId s /\ isWithdrawn (goal s goalId) = false /\
  (deadline (goal s goalId) ≤ now \/
   targetAmount (goal s goalId) ≤ balance (goal s goalId)) /\
  0 < balance (goal s goalId).
Proof.
  unfold canWithdraw, goalExists.
  case_bool_decide; simpl; [|intuition discriminate].
  destruct (isWithdrawn (goal s goalId)); simpl; [intuition discriminate|].
  repeat case_bool_decide; simpl; intuition (try discriminate; try lia).
Qed.

Lemma withdraw_ok_sealed r sender now goalId s evs u w' :
  (withdraw (run r now) sender now goalId (s, evs)).2 = Ok (u, w') ->
  withdraw_precheck s sender now goalId = None /\ sealed goalId w'.1.
Proof.
  rewrite withdraw_eq.
  destruct (withdraw_precheck s sender now goalId) eqn:Hpre;
    [discriminate|].
  cbv zeta. intros H. split; [done|].
  pose proof Hpre as (He & _)%withdraw_precheck_None.
  pose proof (run_preserves (sealed goalId) (sealed_created goalId)
                (sealed_deposited goalId) (sealed_finalized goalId)
                r now (finalized goalId s, evs)) as Hp.
  destruct (run r now (finalized goalId s, evs)) as [t [[s2 evs2]|]];
    cbn [fst snd] in *; [|discriminate].
  inversion H; subst. cbn [fst].
  apply (Hp (s2, evs2)); [by apply sealed_after_finalized|done].
Qed.

(** X8. [withdraw] pays once: after a successful withdrawal, in every state
    that later transactions lead to, the same caller's [withdraw] on the goal
    fails with "Goal has already been withdrawn", anyone else's fails with
    "Only goal owner can withdraw", and [canWithdraw] answers false at every
    time. *)
Theorem withdraw_succeeds_only_once
    (r : Recv) (sender : address) (now goalId : N) (s s'' : Ledger) :
  outcome (transact (withdraw (run r now) sender now goalId) s) = Ok tt ->
  reaches (exec s now (TxWithdraw sender goalId r)) s'' ->
  forall rcp now' evs,
    withdraw rcp sender now' goalId (s'', evs) =
      ([], Fail (Revert "Goal has already been withdrawn")) /\
    (forall other, other ≠ sender ->
       withdraw rcp other now' goalId (s'', evs) =
         ([], Fail (Revert "Only goal owner can withdraw"))) /\
    canWithdraw s'' now' goalId = false.
Proof.
  intros Hok Hr rcp now' evs.
  assert (reaches s s'') as Hs.
  { apply (reaches_trans _ (exec s now (TxWithdraw sender goalId r)));
      [apply reaches_step, reaches_refl|exact Hr]. }
  assert (withdraw_precheck s sender now goalId = None /\
          sealed goalId (exec s now (TxWithdraw sender goalId r)))
    as [Hpre Hsealed].
  { cbn [exec]. unfold transact in *.
    destruct (withdraw (run r now) sender now goalId (s, [])) as [t res] eqn:E.
    destruct res as [[u [s' evs']]|f]; [|discriminate].
    cbn [storage].
    apply (withdraw_ok_sealed r sender now goalId s [] u (s', evs')).
    by rewrite E. }
  apply withdraw_precheck_None in Hpre as (He & Ho & _).
  destruct (terms_stable s s'' Hs) as [Hn Ht].
  apply goalExists_true in He.
  destruct (Ht goalId He) as (Ho'' & _).
  pose proof (reaches_preserves (sealed goalId) (sealed_created goalId)
                (sealed_deposited goalId) (sealed_finalized goalId)
                _ s'' Hsealed Hr) as (Hlt & Hw & Hb).
  split; [|split].
  - rewrite withdraw_eq. unfold withdraw_precheck, goalExists.
    rewrite (bool_decide_eq_true_2 _ Hlt). simpl.
    rewrite bool_decide_eq_true_2 by congruence. simpl. by rewrite Hw.
  - intros other Hne. rewrite withdraw_eq.
    unfold withdraw_precheck, goalExists.
    rewrite (bool_decide_eq_true_2 _ Hlt). simpl.
    rewrite bool_decide_eq_false_2 by congruence. done.
  - destruct (canWithdraw s'' now' goalId) eqn:Hc; [|done].
    apply canWithdraw_true in Hc as (_ & Hnw & _). congruence.
Qed.

Lemma withdraw_succeeds_only_once_witness :
  withdraw (run Accept 200) Scenarios.alice 200 0 (Scenarios.s4, []) =
    ([], Fail (Revert "Goal has already been withdrawn")) /\
  (forall other, other ≠ Scenarios.alice ->
     withdraw (run Accept 200) other 200 0 (Scenarios.s4, []) =
       ([], Fail (Revert "Only goal owner can withdraw"))) /\
  canWithdraw Scenarios.s4 200 0 = false.
Proof.
  apply (withdraw_succeeds_only_once Accept Scenarios.alice 103 0
           Scenarios.s3 Scenarios.s4).
  - vm_compute. reflexivity.
  - apply reaches_refl.
Defined.

(** X9. Eligibility lasts until the withdrawal: once [canWithdraw] is true
    for a goal in a reachable state, it is true at every later time and in
    every later state in which the goal is still not withdrawn; no deposit,
    no new goal and no other withdrawal takes it away. *)
Theorem canWithdraw_stays_true
    (s s' : Ledger) (now now' goalId : N) :
  reachable s -> reaches s s' -> now ≤ now' ->
  canWithdraw s now goalId = true ->
  isWithdrawn (goal s' goalId) = false ->
  canWithdraw s' now' goalId = true.
Proof.
  intros Hr Hs Hnow (Hlt & Hw & Hd & Hb)%canWithdraw_true Hw'.
  destruct (terms_stable s s' Hs) as [Hn Ht].
  destruct (Ht goalId Hlt) as (_ & _ & _ & Htgt & Hdl).
  destruct (balance_grows s s' Hs (unallocated_empty_reachable s Hr))
    as [_ Hgrow].
  destruct (Hgrow goalId Hw') as [_ Hle].
  apply canWithdraw_true. rewrite Htgt, Hdl.
  split; [lia|]. split; [done|]. split; [|lia].
  destruct Hd; [left|right]; lia.
Qed.

Lemma canWithdraw_stays_true_witness :
  canWithdraw (exec Scenarios.s3 103 (TxDeposit Scenarios.bob 5 0)) 500 0 =
  true.
Proof.
  apply (canWithdraw_stays_true Scenarios.s3
           (exec Scenarios.s3 103 (TxDeposit Scenarios.bob 5 0)) 103 500 0).
  - unfold reachable, Scenarios.s3, Scenarios.s2, Scenarios.s1.
    do 3 apply reaches_step. apply reaches_refl.
  - apply reaches_step, reaches_refl.
  - by vm_compute.
  - vm_compute. reflexivity.
  - vm_compute. reflexivity.
Defined.

(** ** Who is paid *)

Lemma step_pays_owner s now tx :
  pays_owner (s, []) (exec s now tx, tx_logs s now tx).
Proof.
  apply (step_related pays_owner); unfold pays_owner; cbn [fst snd].
  - intros w. split; [done|]. split; [done|]. auto.
  - intros w1 w2 w3 (Hn1 & Ho1 & He1) (Hn2 & Ho2 & He2).
    split; [lia|]. split.
    + intros goalId Hlt. rewrite Ho2 by lia. by apply Ho1.
    + intros goalId to amount Hin.
      destruct (He2 _ _ _ Hin) as [Hin2|Hv]; [|by right].
      destruct (He1 _ _ _ Hin2) as [Hin1|[Hlt ->]]; [by left|].
      right. split; [lia|]. symmetry. by apply Ho2.
  - intros s0 evs sender now0 ttl dsc tgt dl _ _ _ _.
    rewrite nextGoalId_created_store. split; [lia|]. split.
    + intros goalId Hlt. rewrite goal_created_store.
      destruct (decide (nextGoalId s0 = goalId)); [lia|done].
    + intros goalId to amount [Hin|Hin]%elem_of_app; [by left|].
      apply list_elem_of_singleton in Hin. discriminate.
  - intros s0 evs sender value goalId _ _ _ _. split; [done|]. split.
    + intros goalId' _. rewrite goal_set_balance.
      destruct (decide (goalId = goalId')) as [->|]; done.
    + intros goalId' to amount [Hin|Hin]%elem_of_app; [by left|].
      apply list_elem_of_singleton in Hin. discriminate.
  - intros s0 evs s2 evs2 sender now0 goalId Hpre (Hn & Ho & He).
    apply withdraw_precheck_None in Hpre as (Hex%goalExists_true & Hown & _).
    rewrite nextGoalId_finalized in Hn.
    assert (forall goalId', goalId' < nextGoalId s0 ->
              owner (goal s2 goalId') = owner (goal s0 goalId')) as Ho'.
    { intros goalId' Hlt. rewrite Ho by done. rewrite goal_finalized.
      destruct (decide (goalId = goalId')) as [->|]; done. }
    split; [done|]. split; [exact Ho'|].
    intros goalId' to amount [Hin|Hin]%elem_of_app; [by apply He|].
    apply list_elem_of_singleton in Hin. inversion Hin; subst.
    right. split; [lia|]. symmetry. by apply Ho'.
Qed.

(** X10. Payouts go to the owner only: every [Withdrawn] event in the
    history of a ledger names a goal that exists and, as recipient, that
    goal's owner, whoever called and whatever recipient code ran. *)
Theorem payouts_go_to_the_owner
    (s : Ledger) (h : list Event) (goalId : N) (to : address) (amount : N) :
  ledger_history s h -> Withdrawn goalId to amount ∈ h ->
  goalExists s goalId = true /\ to = owner (goal s goalId) /\
  isWithdrawn (goal s goalId) = true.
Proof.
  intros Hh Hin.
  assert (goalId < nextGoalId s /\ to = owner (goal s goalId)) as [Hlt Ho].
  { induction Hh as [|s h now tx Hh IH]; [by apply elem_of_nil in Hin|].
    destruct (step_pays_owner s now tx) as (Hn & Ho & He). cbn [fst snd] in *.
    apply elem_of_app in Hin as [Hin|Hin].
    - destruct (IH Hin) as [Hlt ->]. split; [lia|]. symmetry. by apply Ho.
    - destruct (He _ _ _ Hin) as [Hnil|Hv]; [by apply elem_of_nil in Hnil|].
      exact Hv. }
  split; [by apply goalExists_true|]. split; [done|].
  destruct (history_accounts s h Hh goalId) as [_ Hp].
  destruct (isWithdrawn (goal s goalId)); [done|]. exfalso.
  simpl in Hp. clear -Hin Hp.
  induction h as [|e h IH]; [by apply elem_of_nil in Hin|].
  apply elem_of_cons in Hin as [<-|Hin].
  - simpl in Hp. destruct (decide (goalId = goalId)); [lia|done].
  - apply IH; [done|]. destruct e; simpl in Hp; try done.
    destruct (decide (_ = goalId)); lia.
Qed.

Lemma payouts_go_to_the_owner_witness :
  goalExists Scenarios.s4 0 = true /\
  Scenarios.alice = owner (goal Scenarios.s4 0) /\
  isWithdrawn (goal Scenarios.s4 0) = true.
Proof.
  apply (payouts_go_to_the_owner Scenarios.s4 scenario_history 0
           Scenarios.alice Scenarios.TWO_ETH scenario_history_ok).
  vm_compute. do 3 apply list_elem_of_further. apply list_elem_of_here.
Defined.

(** ** The pages against the ledger *)

Lemma fetchGoals_ok s0 (chain : nat -> Ledger) n :
  (forall i, reaches s0 (chain i)) ->
  N.of_nat n ≤ nextGoalId s0 ->
  Frontend.fetchGoals chain n =
    Ok ((fun i => Frontend.entry (N.of_nat i)
                    (goal (chain i) (N.of_nat i))) <$> seq 0 n).
Proof.
  intros Hchain. induction n as [|n IH]; intros Hn; [done|].
  cbn [Frontend.fetchGoals]. rewrite IH by lia.
  destruct (terms_stable s0 (chain n) (Hchain n)) as [Hle _].
  unfold getGoal, goalExists. rewrite bool_decide_eq_true_2 by lia.
  by rewrite seq_S, fmap_app.
Qed.

Lemma entry_fields i g :
  Frontend.id (Frontend.entry i g) = i /\
  Frontend.owner (Frontend.entry i g) = owner g /\
  Frontend.title (Frontend.entry i g) = title g /\
  Frontend.description (Frontend.entry i g) = description g /\
  Frontend.targetAmount (Frontend.entry i g) = targetAmount g /\
  Frontend.deadline (Frontend.entry i g) = deadline g /\
  Frontend.balance (Frontend.entry i g) = balance g /\
  Frontend.isWithdrawn (Frontend.entry i g) = isWithdrawn g.
Proof. by destruct g. Qed.

Lemma my_goals_ids s0 (chain : nat -> Ledger) a n :
  (forall i, reaches s0 (chain i)) ->
  N.of_nat n ≤ nextGoalId s0 ->
  Frontend.id <$>
    filter (fun g => Frontend.owner g = a)
      ((fun i => Frontend.entry (N.of_nat i) (goal (chain i) (N.of_nat i)))
         <$> seq 0 n) =
  filter (fun goalId => owner (goal s0 goalId) = a) (ids (N.of_nat n)).
Proof.
  intros Hchain. induction n as [|n IH]; intros Hn; [done|].
  rewrite seq_S, fmap_app, filter_app, fmap_app, IH by lia.
  replace (N.of_nat (S n)) with (N.of_nat n + 1) by lia.
  rewrite ids_succ, filter_app. f_equal.
  destruct (terms_stable s0 (chain n) (Hchain n)) as [_ Ht].
  destruct (Ht (N.of_nat n)) as (Ho & _); [lia|].
  simpl. rewrite !filter_cons, !filter_nil.
  destruct (entry_fields (N.of_nat n) (goal (chain n) (N.of_nat n)))
    as (Hid & Hown & _).
  rewrite Hown, Ho.
  destruct (decide (owner (goal s0 (N.of_nat n)) = a)); [|done].
  simpl. by rewrite Hid.
Qed.

(** X11. [loadGoals] never hits a missing goal, and its My Goals list is
    the contract's owner index: on a reachable ledger with at most 2^53
    goals, whatever transactions are mined while the loop runs, every
    [getGoal(i)] call succeeds, the list has one entry per id in id order,
    each entry carries the goal's owner, title, description, target and
    deadline, and the ids of the entries kept for an account are exactly
    [getGoalsByOwner] of that account. *)
Theorem loadGoals_lists_every_goal
    (s0 : Ledger) (chain : nat -> Ledger) (account : option address) :
  reachable s0 -> (forall i, reaches s0 (chain i)) ->
  getTotalGoals s0 ≤ 2 ^ 53 ->
  exists allGoals,
    Frontend.loadGoals s0 chain account =
      Some (Ok (allGoals,
                (fun a => filter (fun g => Frontend.owner g = a) allGoals)
                  <$> account)) /\
    N.of_nat (length allGoals) = getTotalGoals s0 /\
    (forall i, i < getTotalGoals s0 ->
       exists g, allGoals !! N.to_nat i = Some g /\
         Frontend.id g = i /\
         Frontend.owner g = owner (goal s0 i) /\
         Frontend.title g = title (goal s0 i) /\
         Frontend.description g = description (goal s0 i) /\
         Frontend.targetAmount g = targetAmount (goal s0 i) /\
         Frontend.deadline g = deadline (goal s0 i)) /\
    (forall a, Frontend.id <$> filter (fun g => Frontend.owner g = a) allGoals
               = getGoalsByOwner s0 a).
Proof.
  intros Hr Hchain Hsafe. unfold getTotalGoals in *.
  exists ((fun i => Frontend.entry (N.of_nat i) (goal (chain i) (N.of_nat i)))
            <$> seq 0 (N.to_nat (nextGoalId s0))).
  split; [|split; [|split]].
  - unfold Frontend.loadGoals, Frontend.Number, getTotalGoals.
    rewrite (bool_decide_eq_true_2 _ Hsafe).
    by rewrite (fetchGoals_ok s0) by (done || lia).
  - rewrite length_fmap, length_seq. lia.
  - intros i Hi.
    exists (Frontend.entry i (goal (chain (N.to_nat i)) i)).
    split.
    + rewrite list_lookup_fmap, lookup_seq_lt by lia. simpl.
      by rewrite N2Nat.id.
    + destruct (entry_fields i (goal (chain (N.to_nat i)) i))
        as (-> & -> & -> & -> & -> & -> & _).
      destruct (terms_stable s0 _ (Hchain (N.to_nat i))) as [_ Ht].
      destruct (Ht i Hi) as (?&?&?&?&?). done.
  - intros a. rewrite (my_goals_ids s0) by (done || lia).
    rewrite N2Nat.id. unfold getGoalsByOwner.
    symmetry. by apply owner_index_ok_reachable.
Qed.

Lemma loadGoals_lists_every_goal_witness :
  exists allGoals,
    Frontend.loadGoals Scenarios.s4 (fun _ => Scenarios.s4)
                       (Some Scenarios.alice) =
      Some (Ok (allGoals,
                (fun a => filter (fun g => Frontend.owner g = a) allGoals)
                  <$> Some Scenarios.alice)) /\
    N.of_nat (length allGoals) = getTotalGoals Scenarios.s4 /\
    (forall i, i < getTotalGoals Scenarios.s4 ->
       exists g, allGoals !! N.to_nat i = Some g /\
         Frontend.id g = i /\
         Frontend.owner g = owner (goal Scenarios.s4 i) /\
         Frontend.title g = title (goal Scenarios.s4 i) /\
         Frontend.description g = description (goal Scenarios.s4 i) /\
         Frontend.targetAmount g = targetAmount (goal Scenarios.s4 i) /\
         Frontend.deadline g = deadline (goal Scenarios.s4 i)) /\
    (forall a, Frontend.id <$> filter (fun g => Frontend.owner g = a) allGoals
               = getGoalsByOwner Scenarios.s4 a).
Proof.
  apply (loadGoals_lists_every_goal Scenarios.s4 (fun _ => Scenarios.s4)
           (Some Scenarios.alice) scenario_reachable).
  - intros _. apply reaches_refl.
  - by vm_compute.
Defined.

Lemma showsWithdraw_true account past i g :
  Frontend.showsWithdraw account past (Frontend.entry i g) = true ->
  isWithdrawn g = false /\ account = owner g /\
  (past = true \/ targetAmount g ≤ balance g).
Proof.
  unfold Frontend.showsWithdraw, Frontend.isOwner, Frontend.isTargetReached.
  destruct (entry_fields i g) as (_ & -> & _ & _ & -> & _ & -> & ->).
  rewrite !andb_true_iff, orb_true_iff, negb_true_iff, !bool_decide_eq_true.
  tauto.
Qed.

(** X12. What [GoalCard] offers, the contract accepts.  If a card built
    from a reachable ledger shows Withdraw to an account, and the target is
    reached (or the chain's time has reached the deadline and the goal holds
    something), then in every later state in which the goal is still not
    withdrawn that account's [withdraw] passes all checks and, with a
    recipient that accepts the funds, succeeds.  If a card shows Donate,
    a deposit of any positive amount that fits succeeds on that ledger. *)
Theorem card_buttons_are_accepted
    (s0 : Ledger) (i : N) (account : address) :
  reachable s0 -> i < getTotalGoals s0 ->
  (forall s' past now evs,
     reaches s0 s' ->
     Frontend.showsWithdraw account past (Frontend.entry i (goal s0 i))
       = true ->
     Frontend.isTargetReached (Frontend.entry i (goal s0 i)) = true \/
       (deadline (goal s0 i) ≤ now /\ 0 < balance (goal s0 i)) ->
     isWithdrawn (goal s' i) = false ->
     exists w', (withdraw (run Accept now) account now i (s', evs)).2 =
                Ok (tt, w')) /\
  (forall value evs,
     Frontend.showsDonate account (Frontend.entry i (goal s0 i)) = true ->
     0 < value -> balance (goal s0 i) + value ≤ MAX_UINT256 ->
     exists w', (deposit account value i (s0, evs)).2 = Ok (tt, w')).
Proof.
  intros Hr Hi. unfold getTotalGoals in Hi. split.
  - intros s' past now evs Hs Hshow Hwhy Hw'.
    apply showsWithdraw_true in Hshow as (Hw0 & Hown & _).
    destruct (terms_stable s0 s' Hs) as [Hn Ht].
    destruct (Ht i Hi) as (Ho & _ & _ & Htgt & Hdl).
    destruct (balance_grows s0 s' Hs (unallocated_empty_reachable s0 Hr))
      as [_ Hgrow].
    destruct (Hgrow i Hw') as [_ Hle].
    destruct (goals_valid_reachable s0 Hr i Hi) as (g & Hg & Hpos & _).
    assert (goal s0 i = g) as Hgoal by (unfold goal; by rewrite Hg).
    assert (withdraw_precheck s' account now i = None) as Hpre.
    { apply withdraw_precheck_None. rewrite Ho, Htgt, Hdl.
      split; [apply goalExists_true; lia|]. split; [done|]. split; [done|].
      destruct Hwhy as [Hreached|[Hdue Hsome]].
      - unfold Frontend.isTargetReached in Hreached.
        destruct (entry_fields i (goal s0 i))
          as (_ & _ & _ & _ & Et & _ & Eb & _).
        rewrite Et, Eb in Hreached.
        apply bool_decide_eq_true in Hreached. rewrite Hgoal in *.
        split; [right|]; lia.
      - split; [left|]; lia. }
    rewrite withdraw_eq, Hpre. simpl. eauto.
  - intros value evs Hshow Hv Hfit.
    unfold Frontend.showsDonate in Hshow.
    destruct (entry_fields i (goal s0 i)) as (_ & _ & _ & _ & _ & _ & _ & Ew).
    rewrite Ew in Hshow.
    apply andb_true_iff in Hshow as [Hnw%negb_true_iff _].
    rewrite deposit_eq.
    rewrite (proj2 (goalExists_true s0 i) Hi), Hnw.
    rewrite (bool_decide_eq_true_2 _ Hv), (bool_decide_eq_true_2 _ Hfit).
    simpl. eauto.
Qed.

Lemma card_buttons_are_accepted_witness :
  (exists w', (withdraw (run Accept 90000) Scenarios.alice 90000 0
                 (Scenarios.s3, [])).2 = Ok (tt, w')) /\
  (exists w', (deposit Scenarios.bob 5 0 (Scenarios.s2, [])).2 = Ok (tt, w')).
Proof.
  split.
  - apply (proj1 (card_buttons_are_accepted Scenarios.s2 0 Scenarios.alice
                    ltac:(unfold reachable, Scenarios.s2, Scenarios.s1;
                          do 2 apply reaches_step; apply reaches_refl)
                    ltac:(by vm_compute))
             Scenarios.s3 true 90000 []).
    + apply reaches_step, reaches_refl.
    + vm_compute. reflexivity.
    + right. split; by vm_compute.
    + vm_compute. reflexivity.
  - apply (proj2 (card_buttons_are_accepted Scenarios.s2 0 Scenarios.bob
                    ltac:(unfold reachable, Scenarios.s2, Scenarios.s1;
                          do 2 apply reaches_step; apply reaches_refl)
                    ltac:(by vm_compute)) 5 []).
    + vm_compute. reflexivity.
    + by vm_compute.
    + by vm_compute.
Defined.

(** X13. [GoalCard] does not ask [canWithdraw]: for a goal that exists, is
    not withdrawn and is empty, once the deadline has passed the card shows
    Withdraw to the owner, while [canWithdraw] is false and the owner's
    [withdraw] fails with "No balance to withdraw". *)
Theorem card_offers_withdraw_on_empty_goal
    (s : Ledger) (i now : N) (rcp : World -> list Obs * option World)
    (evs : list Event) :
  i < getTotalGoals s -> isWithdrawn (goal s i) = false ->
  balance (goal s i) = 0 -> deadline (goal s i) ≤ now ->
  Frontend.showsWithdraw (owner (goal s i)) true
    (Frontend.entry i (goal s i)) = true /\
  canWithdraw s now i = false /\
  withdraw rcp (owner (goal s i)) now i (s, evs) =
    ([], Fail (Revert "No balance to withdraw")).
Proof.
  intros Hi Hw Hb Hd. unfold getTotalGoals in Hi. split; [|split].
  - unfold Frontend.showsWithdraw, Frontend.isOwner.
    destruct (entry_fields i (goal s i)) as (_ & -> & _ & _ & _ & _ & _ & ->).
    rewrite Hw. simpl. by rewrite bool_decide_eq_true_2.
  - destruct (canWithdraw s now i) eqn:Hc; [|done].
    apply canWithdraw_true in Hc as (_ & _ & _ & Hpos). lia.
  - rewrite withdraw_eq. unfold withdraw_precheck, goalExists.
    rewrite (bool_decide_eq_true_2 _ Hi). simpl.
    rewrite bool_decide_eq_true_2 by done. simpl. rewrite Hw.
    rewrite (bool_decide_eq_true_2 _ Hd). simpl.
    by rewrite bool_decide_eq_false_2 by lia.
Qed.

Lemma card_offers_withdraw_on_empty_goal_witness :
  Frontend.showsWithdraw (owner (goal Scenarios.s1 0)) true
    (Frontend.entry 0 (goal Scenarios.s1 0)) = true /\
  canWithdraw Scenarios.s1 (101 + Scenarios.day) 0 = false /\
  withdraw (run Accept (101 + Scenarios.day)) (owner (goal Scenarios.s1 0))
    (101 + Scenarios.day) 0 (Scenarios.s1, []) =
    ([], Fail (Revert "No balance to withdraw")).
Proof.
  apply (card_offers_withdraw_on_empty_goal Scenarios.s1 0
           (101 + Scenarios.day) (run Accept (101 + Scenarios.day)) []);
    by vm_compute.
Defined.

(** ** The owner index only grows, and the log tells the truth *)

(** X14. The owner index is append-only: whatever transactions follow,
    what [getGoalsByOwner] returned for an identity stays a prefix of what
    it returns later; entries are never removed, reordered or rewritten. *)
Theorem owner_index_is_append_only (s s' : Ledger) (a : address) :
  reaches s s' ->
  exists added, getGoalsByOwner s' a = getGoalsByOwner s a ++ added.
Proof.
  intros Hr. revert a. unfold getGoalsByOwner.
  apply (reaches_related
           (fun s s' => forall a, exists added,
              ownerGoalsOf s' a = ownerGoalsOf s a ++ added)); [| | | | |done].
  - intros s0 a. exists []. by rewrite app_nil_r.
  - intros s1 s2 s3 H1 H2 a.
    destruct (H1 a) as [l1 E1]. destruct (H2 a) as [l2 E2].
    exists (l1 ++ l2). by rewrite E2, E1, app_assoc.
  - intros s0 sender now ttl dsc tgt dl _ _ _ _ a.
    rewrite ownerGoalsOf_created_store.
    destruct (decide (sender = a)) as [->|]; [eauto|].
    exists []. by rewrite app_nil_r.
  - intros s0 value goalId _ _ _ _ a. exists []. by rewrite app_nil_r.
  - intros s0 s2 sender now goalId _ H a. apply H.
Qed.

Lemma owner_index_is_append_only_witness :
  exists added,
    getGoalsByOwner Scenarios.s4 Scenarios.alice =
    getGoalsByOwner Scenarios.s1 Scenarios.alice ++ added.
Proof.
  apply (owner_index_is_append_only Scenarios.s1 Scenarios.s4
           Scenarios.alice).
  unfold Scenarios.s4, Scenarios.s3, Scenarios.s2.
  do 3 apply reaches_step. apply reaches_refl.
Defined.

Lemma step_announces_terms s now tx :
  announces_terms (s, []) (exec s now tx, tx_logs s now tx).
Proof.
  apply (step_related announces_terms); unfold announces_terms;
    cbn [fst snd].
  - intros w. split; [done|]. split; [intros; apply same_terms_refl|auto].
  - intros w1 w2 w3 (Hn1 & Ht1 & He1) (Hn2 & Ht2 & He2).
    split; [lia|]. split.
    + intros goalId Hlt.
      apply (same_terms_trans _ (goal w2.1 goalId)); [auto|].
      apply Ht2. lia.
    + intros goalId o tgt dl Hin.
      destruct (He2 _ _ _ _ Hin) as [Hin2|Hv]; [|by right].
      destruct (He1 _ _ _ _ Hin2) as [Hin1|(Hlt & Ho & Htg & Hd)];
        [by left|].
      right. destruct (Ht2 goalId Hlt) as (Eo & _ & _ & Et & Ed).
      split; [lia|]. split; [congruence|]. split; congruence.
  - intros s0 evs sender now0 ttl dsc tgt dl _ _ _ _.
    rewrite nextGoalId_created_store. split; [lia|]. split.
    + intros goalId Hlt. rewrite goal_created_store.
      destruct (decide (nextGoalId s0 = goalId)); [lia|apply same_terms_refl].
    + intros goalId o tgt' dl' [Hin|Hin]%elem_of_app; [by left|].
      apply list_elem_of_singleton in Hin. inversion Hin; subst.
      right. rewrite goal_created_store.
      destruct (decide (nextGoalId s0 = nextGoalId s0)); [|done].
      split; [lia|done].
  - intros s0 evs sender value goalId _ _ _ _. split; [done|]. split.
    + intros goalId' _. rewrite goal_set_balance.
      destruct (decide (goalId = goalId')) as [->|]; by repeat split.
    + intros goalId' o tgt dl [Hin|Hin]%elem_of_app; [by left|].
      apply list_elem_of_singleton in Hin. discriminate.
  - intros s0 evs s2 evs2 sender now0 goalId Hpre (Hn & Ht & He).
    rewrite nextGoalId_finalized in Hn, Ht.
    split; [done|]. split.
    + intros goalId' Hlt.
      apply (same_terms_trans _ (goal (finalized goalId s0) goalId'));
        [|by apply Ht].
      rewrite goal_finalized.
      destruct (decide (goalId = goalId')) as [->|]; by repeat split.
    + intros goalId' o tgt dl [Hin|Hin]%elem_of_app; [by apply He|].
      apply list_elem_of_singleton in Hin. discriminate.
Qed.

(** X15. The log tells the truth about goals: for every [GoalCreated]
    event in the history of a ledger, the goal stored under that id exists
    and has the owner, target and deadline the event announced, however many
    transactions came after it. *)
Theorem created_event_matches_goal
    (s : Ledger) (h : list Event) (goalId : N) (o : address) (tgt dl : N) :
  ledger_history s h -> GoalCreated goalId o tgt dl ∈ h ->
  goalExists s goalId = true /\ owner (goal s goalId) = o /\
  targetAmount (goal s goalId) = tgt /\ deadline (goal s goalId) = dl.
Proof.
  intros Hh Hin. rewrite goalExists_true.
  induction Hh as [|s h now tx Hh IH]; [by apply elem_of_nil in Hin|].
  destruct (step_announces_terms s now tx) as (Hn & Ht & He).
  cbn [fst snd] in *.
  apply elem_of_app in Hin as [Hin|Hin].
  - destruct (IH Hin) as (Hlt & Ho & Htg & Hd).
    destruct (Ht goalId Hlt) as (Eo & _ & _ & Et & Ed).
    split; [lia|]. split; [congruence|]. split; congruence.
  - destruct (He _ _ _ _ Hin) as [Hnil|Hv]; [by apply elem_of_nil in Hnil|].
    exact Hv.
Qed.

Lemma created_event_matches_goal_witness :
  goalExists Scenarios.s4 0 = true /\
  owner (goal Scenarios.s4 0) = Scenarios.alice /\
  targetAmount (goal Scenarios.s4 0) = Scenarios.TWO_ETH /\
  deadline (goal Scenarios.s4 0) = 100 + Scenarios.day.
Proof.
  apply (created_event_matches_goal Scenarios.s4 scenario_history 0
           Scenarios.alice Scenarios.TWO_ETH (100 + Scenarios.day)
           scenario_history_ok).
  vm_compute. apply list_elem_of_here.
Defined.

(** ** The contract holds what the ledger owes *)

Lemma custody_created sender ttl dsc tgt dl s :
  custody (created_store sender ttl dsc tgt dl s) = custody s.
Proof.
  unfold custody. rewrite nextGoalId_created_store, ids_succ, sum_over_app.
  simpl. rewrite goal_created_store.
  destruct (decide (nextGoalId s = nextGoalId s)); [|done]. simpl.
  rewrite (sum_over_ext _ (fun x => balance (goal s x))); [lia|].
  intros x Hx%elem_of_ids. rewrite goal_created_store.
  destruct (decide (nextGoalId s = x)); [lia|done].
Qed.

Lemma custody_set_balance s goalId b :
  goalExists s goalId = true ->
  custody (set_balance goalId b s) + balance (goal s goalId) = custody s + b.
Proof.
  intros He%goalExists_true. unfold custody.
  change (nextGoalId (set_balance goalId b s)) with (nextGoalId s).
  rewrite (sum_over_update (fun x => balance (goal s x))
             (fun x => balance (goal (set_balance goalId b s) x))
             (ids (nextGoalId s)) goalId).
  - rewrite goal_set_balance. destruct (decide (goalId = goalId)); done.
  - apply NoDup_ids.
  - by apply elem_of_ids.
  - intros x Hne. rewrite goal_set_balance.
    destruct (decide (goalId = x)); congruence.
Qed.

Lemma custody_finalized s goalId :
  goalExists s goalId = true ->
  custody (finalized goalId s) + balance (goal s goalId) = custody s.
Proof.
  intros He%goalExists_true. unfold custody.
  rewrite nextGoalId_finalized.
  rewrite (sum_over_update (fun x => balance (goal s x))
             (fun x => balance (goal (finalized goalId s) x))
             (ids (nextGoalId s)) goalId).
  - rewrite goal_finalized. destruct (decide (goalId = goalId)); [|done].
    simpl. lia.
  - apply NoDup_ids.
  - by apply elem_of_ids.
  - intros x Hne. rewrite goal_finalized.
    destruct (decide (goalId = x)); congruence.
Qed.

Lemma attempt_deposit_cases sender value goalId s evs :
  (goalExists s goalId = true /\
   balance (goal s goalId) + value ≤ MAX_UINT256 /\
   exists evs',
     attempt (deposit sender value goalId) (s, evs) =
       ([], true,
        (set_balance goalId (balance (goal s goalId) + value) s, evs'))) \/
  attempt (deposit sender value goalId) (s, evs) = ([], false, (s, evs)).
Proof.
  unfold attempt. rewrite deposit_eq.
  destruct (goalExists s goalId); [|by right].
  case_bool_decide; [|by right].
  destruct (isWithdrawn (goal s goalId)); [by right|].
  case_bool_decide; [|by right].
  left. cbv zeta. eauto.
Qed.

Lemma attempt_createGoal_cases sender now ttl dsc tgt dl s evs :
  (exists evs',
     attempt (createGoal sender now ttl dsc tgt dl) (s, evs) =
       ([], true, (created_store sender ttl dsc tgt dl s, evs'))) \/
  attempt (createGoal sender now ttl dsc tgt dl) (s, evs) =
    ([], false, (s, evs)).
Proof.
  unfold attempt. rewrite createGoal_eq.
  repeat case_bool_decide; eauto.
Qed.

Lemma attempt_withdraw_cases rcp sender now goalId s evs :
  (exists reason,
     withdraw_precheck s sender now goalId = Some reason /\
     attempt (withdraw rcp sender now goalId) (s, evs) =
       ([], false, (s, evs))) \/
  (withdraw_precheck s sender now goalId = None /\
   exists t s2 evs2 evs',
     rcp (finalized goalId s, evs) = (t, Some (s2, evs2)) /\
     attempt (withdraw rcp sender now goalId) (s, evs) =
       (Handed goalId sender (balance (goal s goalId))
               (goal (finalized goalId s) goalId) :: t, true, (s2, evs'))) \/
  (withdraw_precheck s sender now goalId = None /\
   exists t,
     rcp (finalized goalId s, evs) = (t, None) /\
     attempt (withdraw rcp sender now goalId) (s, evs) =
       (Handed goalId sender (balance (goal s goalId))
               (goal (finalized goalId s) goalId) :: t, false, (s, evs))).
Proof.
  unfold attempt. rewrite withdraw_eq.
  destruct (withdraw_precheck s sender now goalId) as [reason|];
    [left; eauto|]. right. cbv zeta.
  destruct (rcp (finalized goalId s, evs)) as [t [[s2 evs2]|]].
  - left. split; [done|]. eauto 10.
  - right. split; [done|]. eauto.
Qed.

(** One [withdraw], nested or not: when the recipient's run keeps the
    contract covered, so does the whole call. *)
Lemma withdraw_keeps_covered inner sender now goalId (w : World) held held' :
  (forall w1 h1 h1' w1',
     custody w1.1 ≤ h1 -> h1 ≤ MAX_UINT256 ->
     ether inner now w1 h1 = Some h1' ->
     (run inner now w1).2 = Some w1' ->
     custody w1'.1 ≤ h1' /\ h1' ≤ MAX_UINT256) ->
  custody w.1 ≤ held -> held ≤ MAX_UINT256 ->
  withdraw_ether (ether inner now) sender now goalId w held
    (attempt (withdraw (run inner now) sender now goalId) w).1.2 = Some held' ->
  custody (attempt (withdraw (run inner now) sender now goalId) w).2.1 ≤ held'
  /\ held' ≤ MAX_UINT256.
Proof.
  destruct w as [s evs]. intros IH Hback Hmax. unfold withdraw_ether.
  cbn [fst snd] in *.
  destruct (attempt_withdraw_cases (run inner now) sender now goalId s evs)
    as [(reason & Hpre & ->)|[(Hpre & t & s2 & evs2 & evs' & Hr & ->)
                            |(Hpre & t & Hr & ->)]];
    rewrite Hpre; cbn [fst snd].
  - intros H. by inversion H; subst.
  - case_bool_decide as Hamt; [|discriminate].
    destruct (ether inner now (finalized goalId s, evs)
                (held - balance (goal s goalId))) as [h1|] eqn:He;
      [|discriminate].
    intros H. inversion H; subst.
    pose proof Hpre as (Hex & _)%withdraw_precheck_None.
    pose proof (custody_finalized s goalId Hex) as Hc.
    apply (IH (finalized goalId s, evs) (held - balance (goal s goalId))
              held' (s2, evs2)); cbn [fst]; [lia|lia|done|by rewrite Hr].
  - case_bool_decide as Hamt; [|discriminate].
    destruct (ether inner now (finalized goalId s, evs)
                (held - balance (goal s goalId))) as [h1|]; [|discriminate].
    intros H. by inversion H; subst.
Qed.

Lemma run_keeps_covered r now : forall (w : World) held held' w',
  custody w.1 ≤ held -> held ≤ MAX_UINT256 ->
  ether r now w held = Some held' ->
  (run r now w).2 = Some w' ->
  custody w'.1 ≤ held' /\ held' ≤ MAX_UINT256.
Proof.
  induction r as [| |sender value goalId k IHk
                 |sender goalId inner IHinner k IHk
                 |sender ttl dsc tgt dl k IHk];
    intros [s evs] held held' w' Hback Hmax He Hrun; simpl in He, Hrun;
    cbn [fst] in Hback.
  - inversion He; inversion Hrun; subst. done.
  - discriminate.
  - case_bool_decide as Hdel; [|discriminate].
    destruct (attempt_deposit_cases sender value goalId s evs)
      as [(Hex & Hfit & evs' & E)|E]; rewrite E in He, Hrun.
    + destruct (run (k true) now _) as [t' o] eqn:Hk. cbn [snd] in Hrun.
      subst o. apply (IHk true _ _ _ _) with (3 := He); cbn [fst].
      * pose proof (custody_set_balance s goalId
                      (balance (goal s goalId) + value) Hex). lia.
      * done.
      * by rewrite Hk.
    + destruct (run (k false) now _) as [t' o] eqn:Hk. cbn [snd] in Hrun.
      subst o. apply (IHk false _ _ _ _) with (3 := He); [done|done|].
      by rewrite Hk.
  - pose proof (withdraw_keeps_covered inner sender now goalId (s, evs) held)
      as Hw.
    destruct (attempt (withdraw (run inner now) sender now goalId) (s, evs))
      as [[t ok] w1]. cbn [fst snd] in Hw.
    destruct (withdraw_ether (ether inner now) sender now goalId (s, evs)
                held ok) as [h1|]; [|discriminate].
    destruct (Hw h1 IHinner Hback Hmax eq_refl) as [Hb1 Hm1].
    destruct (run (k ok) now w1) as [t' o] eqn:Hk. cbn [snd] in Hrun.
    subst o. apply (IHk ok _ _ _ _ Hb1 Hm1 He). by rewrite Hk.
  - destruct (attempt_createGoal_cases sender now ttl dsc tgt dl s evs)
      as [(evs' & E)|E]; rewrite E in He, Hrun.
    + destruct (run (k true) now _) as [t' o] eqn:Hk. cbn [snd] in Hrun.
      subst o. apply (IHk true _ _ _ _) with (3 := He); cbn [fst].
      * by rewrite custody_created.
      * done.
      * by rewrite Hk.
    + destruct (run (k false) now _) as [t' o] eqn:Hk. cbn [snd] in Hrun.
      subst o. apply (IHk false _ _ _ _) with (3 := He); [done|done|].
      by rewrite Hk.
Qed.

Lemma transact_attempt {A} (m : Exec A) s :
  storage (transact m s) = (attempt m (s, [])).2.1 /\
  succeeded (outcome (transact m s)) = (attempt m (s, [])).1.2.
Proof.
  unfold transact, attempt.
  by destruct (m (s, [])) as [t [[a [s' evs]]|f]].
Qed.

Lemma funded_covered s held :
  funded s held -> custody s ≤ held /\ held ≤ MAX_UINT256.
Proof.
  induction 1 as [|s held v _ [IH1 IH2] Hv
                 |s held now tx held' _ [IH1 IH2] Htx].
  - split; [done|apply N.le_0_l].
  - split; [lia|done].
  - destruct tx as [sender ttl dsc tgt dl|sender value goalId
                   |sender goalId r]; cbn [exec tx_ether] in *.
    + inversion Htx; subst.
      rewrite (proj1 (transact_attempt _ s)).
      destruct (attempt_createGoal_cases sender now ttl dsc tgt dl s [])
        as [(evs' & ->)| ->]; cbn [fst snd]; [|done].
      by rewrite custody_created.
    + case_bool_decide as Hdel; [|discriminate]. inversion Htx; subst.
      rewrite (proj1 (transact_attempt _ s)), (proj2 (transact_attempt _ s)).
      destruct (attempt_deposit_cases sender value goalId s [])
        as [(Hex & Hfit & evs' & ->)| ->]; cbn [fst snd]; [|done].
      pose proof (custody_set_balance s goalId
                    (balance (goal s goalId) + value) Hex). lia.
    + rewrite (proj1 (transact_attempt _ s)).
      rewrite (proj2 (transact_attempt _ s)) in Htx.
      apply (withdraw_keeps_covered r sender now goalId (s, []) held held');
        try done.
      apply run_keeps_covered.
Qed.

(** X16. The contract never owes more than it holds, and [deposit] never
    panics: on every chain, the contract's ether covers the balances of all
    goals together and fits in a [uint256]; so any goal can be paid out of
    what the contract holds, and a deposit the chain delivers never hits the
    overflow check. *)
Theorem contract_stays_solvent (s : Ledger) (held : N) :
  funded s held ->
  custody s ≤ held /\ held ≤ MAX_UINT256 /\
  (forall goalId, goalExists s goalId = true ->
                  balance (goal s goalId) ≤ held) /\
  (forall sender value goalId code,
     held + value ≤ MAX_UINT256 ->
     outcome (transact (deposit sender value goalId) s) ≠ Fail (Panic code)).
Proof.
  intros [Hback Hmax]%funded_covered.
  split; [done|]. split; [done|]. split.
  - intros goalId He. pose proof (balance_le_custody s goalId He). lia.
  - intros sender value goalId code Hdel. unfold transact.
    rewrite deposit_eq.
    destruct (goalExists s goalId) eqn:He; [|done].
    case_bool_decide; [|done].
    destruct (isWithdrawn (goal s goalId)); [done|].
    rewrite bool_decide_eq_true_2; [done|].
    by apply (delivered_deposit_fits s goalId value held).
Qed.

Lemma contract_stays_solvent_witness :
  custody Scenarios.s2 ≤ Scenarios.ONE_ETH /\
  Scenarios.ONE_ETH ≤ MAX_UINT256 /\
  (forall goalId, goalExists Scenarios.s2 goalId = true ->
                  balance (goal Scenarios.s2 goalId) ≤ Scenarios.ONE_ETH) /\
  (forall sender value goalId code,
     Scenarios.ONE_ETH + value ≤ MAX_UINT256 ->
     outcome (transact (deposit sender value goalId) Scenarios.s2)
       ≠ Fail (Panic code)).
Proof.
  apply (contract_stays_solvent Scenarios.s2 Scenarios.ONE_ETH).
  apply (funded_step Scenarios.s1 0 101
           (TxDeposit Scenarios.bob Scenarios.ONE_ETH 0) Scenarios.ONE_ETH).
  - apply (funded_step init 0 100
             (TxCreateGoal Scenarios.alice "My Dream" "Description"
                Scenarios.TWO_ETH (100 + Scenarios.day)) 0).
    + apply funded_init.
    + reflexivity.
  - vm_compute. reflexivity.
Defined.

(** ** The id counter has room *)

Lemma created_ids_length evs : (length (created_ids evs) ≤ length evs)%nat.
Proof.
  induction evs as [|e evs IH]; [done|]. destruct e; simpl; lia.
Qed.

(** The counter does not exceed the number of events logged so far: it
    takes 2^256 - 1 successful [createGoal] calls to use it up. *)
Lemma counter_has_room s h :
  ledger_history s h -> N.of_nat (length h) < MAX_UINT256 ->
  nextGoalId s < MAX_UINT256.
Proof.
  intros Hh Hlen.
  assert (created_ids h = ids (nextGoalId s)) as Heq.
  { induction Hh as [|s h now tx Hh IH]; [done|].
    destruct (step_announces s now tx) as (l & Ha & Hb). cbn [fst snd] in *.
    simpl in Ha. rewrite created_ids_app, Ha, Hb, IH; [done|].
    rewrite length_app in Hlen. lia. }
  pose proof (created_ids_length h) as Hle.
  rewrite Heq in Hle. unfold ids in Hle.
  rewrite length_fmap, length_seq in Hle. lia.
Qed.
